(** * EBCDIC dataset converter: picture clauses, copybook layouts,
      byte transcoding and the record pipeline

    Shallow embedding of
    [ofasp-refactor/server/system-cmds/functions/ebcdic_dataset_converter.py].

    Conventions of the embedding:
    - Python [int] is [Z]; a [bytes] value is a [list byte]; [str] is
      [string], whose characters are the code points 0..255.  The copybook
      grammar only looks at ASCII letters, digits and punctuation, so the
      character classes and the case mapping below are the restrictions of
      Python's to that range.
    - a [dict] is a [gmap]; [dict.get(k, d)] is [default d (m !! k)].
    - an exception is a constructor of a sum type returned by the function
      that raises it. *)

From Stdlib Require Import ZArith String Ascii List Bool Lia DecimalString.
From Stdlib.Strings Require Import Byte.
From stdpp Require Import gmap strings list.

Local Open Scope string_scope.
Local Open Scope Z_scope.

(** ** Python built-ins used by the converter *)

Module Py.

(** [str.isspace] on one character (also the class [\s] of [re]). *)
Definition is_space (c : ascii) : bool :=
  let n := N_of_ascii c in
  ((9 <=? n) && (n <=? 13) || (28 <=? n) && (n <=? 32)
   || (n =? 133) || (n =? 160))%N.

(** The class [\d] of [re]. *)
Definition is_digit (c : ascii) : bool :=
  let n := N_of_ascii c in ((48 <=? n) && (n <=? 57))%N.

Definition is_lower (c : ascii) : bool :=
  let n := N_of_ascii c in ((97 <=? n) && (n <=? 122))%N.

Definition is_upper (c : ascii) : bool :=
  let n := N_of_ascii c in ((65 <=? n) && (n <=? 90))%N.

Definition upper_char (c : ascii) : ascii :=
  if is_lower c then ascii_of_N (N_of_ascii c - 32) else c.

(** [s.upper()]: the converter applies it to pictures and usage keywords,
    which the field pattern keeps within ASCII. *)
Fixpoint upper (s : string) : string :=
  match s with
  | EmptyString => EmptyString
  | String c s' => String (upper_char c) (upper s')
  end.

(** [s.lstrip()] *)
Fixpoint lstrip (s : string) : string :=
  match s with
  | EmptyString => EmptyString
  | String c s' => if is_space c then lstrip s' else s
  end.

(** [s.rstrip()] *)
Fixpoint rstrip (s : string) : string :=
  match s with
  | EmptyString => EmptyString
  | String c s' =>
      match rstrip s' with
      | EmptyString => if is_space c then EmptyString else String c EmptyString
      | t => String c t
      end
  end.

(** [s.strip()] *)
Definition strip (s : string) : string := lstrip (rstrip s).

(** [s.replace(c, '')] for a one-character [c]. *)
Fixpoint remove_char (c : ascii) (s : string) : string :=
  match s with
  | EmptyString => EmptyString
  | String d s' =>
      if Ascii.eqb d c then remove_char c s' else String d (remove_char c s')
  end.

(** [s.startswith(c)] for a one-character [c]. *)
Definition startswith (c : ascii) (s : string) : bool :=
  match s with
  | String d _ => Ascii.eqb d c
  | EmptyString => false
  end.

(** [s.split(c)] for a one-character separator: never returns the empty
    list, and keeps empty pieces. *)
Fixpoint split (c : ascii) (s : string) : list string :=
  match s with
  | EmptyString => [EmptyString]
  | String d s' =>
      if Ascii.eqb d c then EmptyString :: split c s'
      else match split c s' with
           | p :: ps => String d p :: ps
           | [] => [String d EmptyString]
           end
  end.

(** [int(s)] on a string of decimal digits (the only strings the converter
    passes to [int] are captures of [\d+]). *)
Definition int_of_digits (s : string) : Z :=
  fold_left
    (fun acc c => 10 * acc + (Z.of_N (N_of_ascii c) - 48))
    (list_ascii_of_string s) 0.

(** [len(s)] *)
Definition len (s : string) : Z := Z.of_nat (String.length s).

(** Truth value of a string, and of an optional string ([None] and [''] are
    false). *)
Definition truthy (s : string) : bool :=
  match s with EmptyString => false | _ => true end.

Definition truthy_opt (o : option string) : bool :=
  match o with Some s => truthy s | None => false end.

(** [str(n)] for an [int] [n]. *)
Definition str_of_int (n : Z) : string :=
  NilZero.string_of_int (Z.to_int n).

(** [b[i:j]] on a sequence, with Python's clamping and its negative
    indices counted from the end. *)
Definition clamp_index (n i : Z) : Z :=
  if i <? 0 then Z.max (n + i) 0 else Z.min i n.

Definition slice {A} (l : list A) (i j : Z) : list A :=
  let n := Z.of_nat (length l) in
  let i' := clamp_index n i in
  let j' := clamp_index n j in
  take (Z.to_nat (j' - i')) (drop (Z.to_nat i') l).

(** [b[i:]] *)
Definition slice_from {A} (l : list A) (i : Z) : list A :=
  drop (Z.to_nat (clamp_index (Z.of_nat (length l)) i)) l.

(** [x * n] for a one-element sequence [x]: empty when [n <= 0]. *)
Definition repeat_elem {A} (x : A) (n : Z) : list A :=
  replicate (Z.to_nat n) x.

(** A dict literal: a later entry for a key replaces an earlier one. *)
Definition dict_of_list {K V} `{Countable K} (l : list (K * V)) : gmap K V :=
  fold_left (fun m kv => <[fst kv := snd kv]> m) l ∅.

End Py.

(** ** The fragment of [re] the converter uses

    A backtracking matcher with numbered capture groups and greedy
    quantifiers, in continuation-passing style: [run r s c k] matches [r] at
    the head of [s] and hands the rest of the input and the captures to [k];
    when [k] fails the matcher backtracks into [r], as Python's engine does. *)

Module Re.

Inductive regex : Type :=
| Eps
| Cls (p : ascii -> bool)
| Seq (r1 r2 : regex)
| Alt (r1 r2 : regex)
| Opt (r : regex)
| Star (r : regex)
| Grp (n : nat) (r : regex)
| Eos.

Definition caps : Type := list (nat * string).

Fixpoint group (c : caps) (n : nat) : option string :=
  match c with
  | [] => None
  | (m, s) :: c' => if Nat.eqb m n then Some s else group c' n
  end.

(** The text consumed between input [s] and its suffix [s']. *)
Definition consumed (s s' : string) : string :=
  substring 0 (String.length s - String.length s') s.

Definition cont : Type := string -> caps -> option (string * caps).

(** The greedy loop of [r*]: [step] matches [r] once; an iteration must
    consume input, so [S (length s)] rounds of fuel are never used up. *)
Fixpoint star_loop (step : string -> caps -> cont -> option (string * caps))
    (k : cont) (fuel : nat) (s : string) (c : caps) {struct fuel}
  : option (string * caps) :=
  match fuel with
  | O => k s c
  | S fuel' =>
      match
        step s c
          (fun s' c' =>
             if (String.length s' <? String.length s)%nat
             then star_loop step k fuel' s' c' else None)
      with
      | Some x => Some x
      | None => k s c
      end
  end.

Fixpoint run (r : regex) (s : string) (c : caps) (k : cont)
  : option (string * caps) :=
  match r with
  | Eps => k s c
  | Cls p =>
      match s with
      | String a s' => if p a then k s' c else None
      | EmptyString => None
      end
  | Seq r1 r2 => run r1 s c (fun s' c' => run r2 s' c' k)
  | Alt r1 r2 =>
      match run r1 s c k with
      | Some x => Some x
      | None => run r2 s c k
      end
  | Opt r1 =>
      match run r1 s c k with
      | Some x => Some x
      | None => k s c
      end
  | Star r1 => star_loop (run r1) k (S (String.length s)) s c
  | Grp n r1 => run r1 s c (fun s' c' => k s' ((n, consumed s s') :: c'))
  | Eos =>
      match s with
      | EmptyString => k s c
      | String a EmptyString => if Ascii.eqb a "010" then k s c else None
      | _ => None
      end
  end.

Definition accept : cont := fun s c => Some (s, c).

(** Derived forms. *)
Definition Chr (a : ascii) : regex := Cls (Ascii.eqb a).
(** One literal character under [re.IGNORECASE]. *)
Definition ChrI (a : ascii) : regex :=
  Cls (fun x => Ascii.eqb (Py.upper_char x) (Py.upper_char a)).
Definition Plus (r : regex) : regex := Seq r (Star r).
Fixpoint LitI (s : string) : regex :=
  match s with
  | EmptyString => Eps
  | String a s' => Seq (ChrI a) (LitI s')
  end.

(** [re.match(r, s)]: group 0 is the whole match. *)
Definition re_match (r : regex) (s : string) : option caps :=
  match run (Grp 0 r) s [] accept with
  | Some (_, c) => Some c
  | None => None
  end.

(** [re.search(r, s)]: the leftmost position where [r] matches. *)
Fixpoint search (r : regex) (s : string) : option caps :=
  match re_match r s with
  | Some c => Some c
  | None =>
      match s with
      | EmptyString => None
      | String _ s' => search r s'
      end
  end.

(** [re.findall(r, s)] for a pattern without groups: the non-overlapping
    matches, scanning from the left. *)
Fixpoint findall_from (fuel : nat) (r : regex) (s : string) : list string :=
  match fuel with
  | O => []
  | S fuel' =>
      let skip :=
        match s with
        | EmptyString => []
        | String _ s' => findall_from fuel' r s'
        end in
      match run (Grp 0 r) s [] accept with
      | Some (s', c) =>
          let m := default EmptyString (group c 0) in
          if (String.length s' <? String.length s)%nat
          then m :: findall_from fuel' r s'
          else m :: skip
      | None => skip
      end
  end.

Definition findall (r : regex) (s : string) : list string :=
  findall_from (S (String.length s)) r s.

End Re.

(** ** Data model *)

(** [LayoutField]: one declared field of the copybook. *)
Record LayoutField : Type := mkLayoutField {
  fld_name : string;
  fld_level : string;
  fld_type : string;
  fld_picture : string;
  fld_length : Z;
  fld_position : Z;
  fld_occurs : Z;
  fld_redefines : option string;
  fld_value : option string;
  fld_sign : option string;
  fld_usage : option string;
  fld_description : string
}.

(** [field.length = n] *)
Definition set_length (f : LayoutField) (n : Z) : LayoutField :=
  {| fld_name := fld_name f; fld_level := fld_level f;
     fld_type := fld_type f; fld_picture := fld_picture f;
     fld_length := n; fld_position := fld_position f;
     fld_occurs := fld_occurs f; fld_redefines := fld_redefines f;
     fld_value := fld_value f; fld_sign := fld_sign f;
     fld_usage := fld_usage f; fld_description := fld_description f |}.

(** [x in [s1, s2, ...]] for strings. *)
Definition str_in (x : string) (l : list string) : bool :=
  existsb (String.eqb x) l.

(** ** Picture-clause calculator ([EnhancedCOBOLParser]) *)

Module EnhancedCOBOLParser.

Import Re.

(** [USAGE_TYPES] *)
Definition USAGE_TYPES : gmap string string :=
  Py.dict_of_list
    [("DISPLAY", "PIC");
     ("COMPUTATIONAL", "COMP");
     ("COMPUTATIONAL-1", "COMP-1");
     ("COMPUTATIONAL-2", "COMP-2");
     ("COMPUTATIONAL-3", "COMP-3");
     ("COMPUTATIONAL-4", "COMP-4");
     ("COMPUTATIONAL-5", "COMP-5");
     ("PACKED-DECIMAL", "COMP-3");
     ("BINARY", "COMP");
     ("INDEX", "INDEX");
     ("POINTER", "POINTER")].

(** The class [[9XAN]]. *)
Definition is_pic_symbol (c : ascii) : bool :=
  Ascii.eqb c "9" || Ascii.eqb c "X" || Ascii.eqb c "A" || Ascii.eqb c "N".

(** [r'([9XAN])\((\d+)\)'] *)
Definition paren_re : regex :=
  Seq (Grp 1 (Cls is_pic_symbol))
      (Seq (Chr "(") (Seq (Grp 2 (Plus (Cls Py.is_digit))) (Chr ")"))).

(** The picture as it is measured: upper-cased and stripped, every [V]
    removed, one leading [S] removed. *)
Definition working_picture (picture : string) : string :=
  let picture := Py.strip (Py.upper picture) in
  let working := Py.remove_char "V" picture in
  if Py.startswith "S" working
  then match working with String _ t => t | EmptyString => EmptyString end
  else working.

(** The symbol classes of the fall-back loop, in the order of the source. *)
Definition symbol_classes : list (ascii * string) :=
  [("9"%char, "NUMERIC"); ("X"%char, "ALPHANUMERIC");
   ("A"%char, "ALPHA"); ("N"%char, "NATIONAL")].

(** The body of the two nested [for] loops: every match of [pattern+] adds
    its length to [total_length] and sets [data_type]. *)
Definition count_class (working : string) (acc : Z * string)
    (cl : ascii * string) : Z * string :=
  fold_left
    (fun (a : Z * string) (m : string) => (fst a + Py.len m, snd cl))
    (findall (Plus (Chr (fst cl))) working) acc.

Definition parse_picture_clause (picture : string) : Z * string :=
  let working := working_picture picture in
  match search paren_re working with
  | Some m =>
      let char_type := default EmptyString (group m 1) in
      let length := Py.int_of_digits (default EmptyString (group m 2)) in
      let data_type :=
        if String.eqb char_type "9" then "NUMERIC"
        else if String.eqb char_type "X" then "ALPHANUMERIC"
        else if String.eqb char_type "A" then "ALPHA"
        else if String.eqb char_type "N" then "NATIONAL"
        else "DISPLAY" in
      (length, data_type)
  | None =>
      let r := fold_left (count_class working) symbol_classes (0, "DISPLAY") in
      (Z.max (fst r) 1, snd r)
  end.

Definition calculate_field_length (field : LayoutField) : Z :=
  let base_length := fst (parse_picture_clause (fld_picture field)) in
  if str_in (fld_type field) ["COMP"; "COMP-4"; "COMP-5"] then
    if base_length <=? 4 then 2
    else if base_length <=? 9 then 4
    else 8
  else if String.eqb (fld_type field) "COMP-1" then 4
  else if String.eqb (fld_type field) "COMP-2" then 8
  else if String.eqb (fld_type field) "COMP-3" then (base_length + 1) / 2
  else base_length * fld_occurs field.

End EnhancedCOBOLParser.

(** [ConversionConfig] *)
Record ConversionConfig : Type := mkConversionConfig {
  input_file : string;
  output_file : string;
  layout_file : option string;
  record_length : Z;
  encoding : string;
  sosi_so : Z;
  sosi_si : Z;
  convert_sosi_to_space : bool;
  catalog_path : string;
  dataset_name : option string;
  volume : string;
  library : string;
  update_catalog : bool
}.

(** The exceptions that leave [parse_layout_file] and [convert_dataset]. *)
Inductive exn : Type :=
| LayoutFileNotFound      (* FileNotFoundError("Layout file not found: ...") *)
| LayoutUndecodable       (* ValueError("Could not read layout file with any encoding: ...") *)
| NoFieldDefinitions      (* ValueError("No field definitions found in layout file") *)
| InputFileNotFound       (* FileNotFoundError("Input file not found: ...") *)
| ZeroDivisionError.      (* file_size // 0 *)

Inductive result (A : Type) : Type :=
| Ok (a : A)
| Raise (e : exn).
Arguments Ok {A} a.
Arguments Raise {A} e.

(** The file system the converter reads is a [gmap string (list byte)]: a
    path names at most one file. *)

(** ** Copybook layout parser *)

Module Layout.

Import Re EnhancedCOBOLParser.

Definition ws : regex := Cls Py.is_space.
Definition digits : regex := Plus (Cls Py.is_digit).

(** [[A-Z0-9_-]] under [re.IGNORECASE]. *)
Definition is_name_char (c : ascii) : bool :=
  Py.is_upper c || Py.is_lower c || Py.is_digit c
  || Ascii.eqb c "_" || Ascii.eqb c "-".

(** [[X9ASNVZ()0-9.,\-/V]] under [re.IGNORECASE]. *)
Definition is_pic_char (c : ascii) : bool :=
  let u := Py.upper_char c in
  Ascii.eqb u "X" || Ascii.eqb u "A" || Ascii.eqb u "S" || Ascii.eqb u "N"
  || Ascii.eqb u "V" || Ascii.eqb u "Z" || Ascii.eqb c "(" || Ascii.eqb c ")"
  || Py.is_digit c || Ascii.eqb c "." || Ascii.eqb c "," || Ascii.eqb c "-"
  || Ascii.eqb c "/".

Definition is_1_to_5 (c : ascii) : bool :=
  let n := N_of_ascii c in ((49 <=? n) && (n <=? 53))%N.

(** [(COMP(?:-[1-5])?|DISPLAY|PACKED-DECIMAL|BINARY|INDEX|POINTER)] *)
Definition usage_re : regex :=
  Alt (Seq (LitI "COMP") (Opt (Seq (Chr "-") (Cls is_1_to_5))))
 (Alt (LitI "DISPLAY")
 (Alt (LitI "PACKED-DECIMAL")
 (Alt (LitI "BINARY")
 (Alt (LitI "INDEX") (LitI "POINTER"))))).

(** The field pattern of [parse_layout_file], compiled with
    [re.IGNORECASE]; groups 1..8 are level, name, picture, usage, occurs,
    redefines, value and description. *)
Definition pic_part : regex :=
  Seq (LitI "PIC") (Seq (Plus ws) (Grp 3 (Plus (Cls is_pic_char)))).
Definition occurs_part : regex :=
  Seq (LitI "OCCURS") (Seq (Plus ws) (Grp 5 digits)).
Definition redefines_part : regex :=
  Seq (LitI "REDEFINES") (Seq (Plus ws) (Grp 6 (Plus (Cls is_name_char)))).
Definition not_dot (c : ascii) : bool := negb (Ascii.eqb c ".").
Definition not_newline (c : ascii) : bool := negb (Ascii.eqb c "010").
Definition value_part : regex :=
  Seq (LitI "VALUE") (Seq (Plus ws) (Grp 7 (Plus (Cls not_dot)))).

Definition field_re : regex :=
  foldr Seq Eps
    [Star ws; Grp 1 digits; Plus ws; Grp 2 (Plus (Cls is_name_char)); Plus ws;
     Opt pic_part; Star ws; Opt (Grp 4 usage_re); Star ws;
     Opt occurs_part; Star ws; Opt redefines_part; Star ws;
     Opt value_part; Star ws; Opt (Chr "."); Star ws;
     Grp 8 (Star (Cls not_newline)); Eos].

(** The parser's loop state: the fields emitted so far and
    [current_position]. *)
Definition pstate : Type := list LayoutField * Z.

(** The field built from the groups of a matching line, at running offset
    [current_position], with its length computed; [None] for the group
    headers that are skipped. *)
Definition field_of_match (m : caps) (current_position : Z)
  : option LayoutField :=
  let level := default EmptyString (group m 1) in
  let name := default EmptyString (group m 2) in
  let picture := group m 3 in
  let usage := group m 4 in
  let occurs := group m 5 in
  let redefines := group m 6 in
  let value := group m 7 in
  let description := group m 8 in
  let level_num := Py.int_of_digits level in
  if (level_num <=? 2) && negb (Py.truthy_opt picture) then None
  else
    let picture :=
      if Py.truthy_opt picture then default EmptyString picture else "X(1)" in
    let occurs_count :=
      match occurs with
      | Some o => if Py.truthy o then Py.int_of_digits o else 1
      | None => 1
      end in
    let field_type :=
      match usage with
      | Some u =>
          if Py.truthy u then default "PIC" (USAGE_TYPES !! Py.upper u)
          else "PIC"
      | None => "PIC"
      end in
    let field :=
      {| fld_name := name; fld_level := level; fld_type := field_type;
         fld_picture := picture; fld_length := 0;
         fld_position := current_position; fld_occurs := occurs_count;
         fld_redefines := redefines; fld_value := value; fld_sign := None;
         fld_usage := usage;
         fld_description :=
           match description with
           | Some d => if Py.truthy d then Py.strip d else EmptyString
           | None => EmptyString
           end |} in
    Some (set_length field (calculate_field_length field)).

(** One iteration of the loop over the lines. *)
Definition parse_line (st : pstate) (line : string) : pstate :=
  let line := Py.rstrip line in
  if negb (Py.truthy (Py.strip line))
     || Py.startswith "*" (Py.strip line)
     || Py.startswith "#" (Py.strip line)
  then st
  else
    match re_match field_re line with
    | Some m =>
        match field_of_match m (snd st) with
        | Some field =>
            ((fst st ++ [field])%list,
             if negb (Py.truthy_opt (fld_redefines field))
             then snd st + fld_length field
             else snd st)
        | None => st
        end
    | None => st
    end.

(** The loop over [content.split('\n')], from an empty list and offset 1. *)
Definition parse_lines (content : string) : pstate :=
  fold_left parse_line (Py.split "010" content) ([], 1).

(** Reading in text mode translates [\r\n] and [\r] to [\n]. *)
Fixpoint universal_newlines (s : string) : string :=
  match s with
  | EmptyString => EmptyString
  | String c s' =>
      if Ascii.eqb c "013" then
        String "010"
          match s' with
          | String d s'' =>
              if Ascii.eqb d "010" then universal_newlines s''
              else universal_newlines s'
          | EmptyString => EmptyString
          end
      else String c (universal_newlines s')
  end.

(** [latin1] maps every byte to the code point of the same number. *)
Definition decode_latin1 (raw : list byte) : option string :=
  Some (string_of_list_byte raw).

(** The loop over the candidate encodings: the first decoder that does not
    raise [UnicodeDecodeError] gives [content]. *)
Fixpoint read_with (decoders : list (list byte -> option string))
    (raw : list byte) : option string :=
  match decoders with
  | [] => None
  | d :: ds =>
      match d raw with
      | Some text => Some (universal_newlines text)
      | None => read_with ds raw
      end
  end.

Section ParseLayoutFile.

(** The codecs [shift_jis], [utf-8] and [cp932]: [None] stands for
    [UnicodeDecodeError]. *)
Variables decode_shift_jis decode_utf_8 decode_cp932
  : list byte -> option string.

Definition encodings : list (list byte -> option string) :=
  [decode_shift_jis; decode_utf_8; decode_cp932; decode_latin1].

Definition parse_layout_file (config : ConversionConfig)
    (fs : gmap string (list byte)) : result (list LayoutField) :=
  match layout_file config with
  | None => Ok []
  | Some path =>
      if negb (Py.truthy path) then Ok []
      else
        match fs !! path with
        | None => Raise LayoutFileNotFound
        | Some raw =>
            match read_with encodings raw with
            | None => Raise LayoutUndecodable
            | Some content =>
                let fields := fst (parse_lines content) in
                match fields with
                | [] => Raise NoFieldDefinitions
                | _ => Ok fields
                end
            end
        end
  end.

End ParseLayoutFile.

End Layout.

(** ** Byte transcoder and record pipeline ([EBCDICDatasetConverter]) *)

Definition int_of_byte (b : byte) : Z := Z.of_N (Byte.to_N b).

(** [bytearray.append(x)]: [None] stands for the [ValueError] raised when
    [x] is not in [range(256)]. *)
Definition bytearray_append (acc : list byte) (x : Z) : option (list byte) :=
  if (0 <=? x) && (x <? 256) then
    match Byte.of_N (Z.to_N x) with
    | Some b => Some (acc ++ [b])%list
    | None => None
    end
  else None.

(** [enumerate(l)], counting from [i]. *)
Fixpoint enumerate_from {A} (i : Z) (l : list A) : list (Z * A) :=
  match l with
  | [] => []
  | x :: l' => (i, x) :: enumerate_from (i + 1) l'
  end.

(** The statistics dict of a run. *)
Record stats : Type := mkStats {
  records_converted : Z;
  bytes_processed : Z;
  conversion_errors : Z;
  field_conversions : Z
}.

Module EBCDICDatasetConverter.

Import EnhancedCOBOLParser Layout.

(** [EBCDIC_TO_ASCII_JAK], entry by entry as the source lists it. *)
Definition EBCDIC_TO_ASCII_JAK : gmap Z Z :=
  Py.dict_of_list
    [
     (0x00, 0x00); (0x01, 0x01); (0x02, 0x02); (0x03, 0x03); (0x04, 0x37);
     (0x05, 0x2d); (0x06, 0x2e); (0x07, 0x2f); (0x08, 0x16); (0x09, 0x05);
     (0x0a, 0x25); (0x0b, 0x0b); (0x0c, 0x0c); (0x0d, 0x0d); (0x0e, 0x0e);
     (0x0f, 0x0f); (0x10, 0x10); (0x11, 0x11); (0x12, 0x12); (0x13, 0x13);
     (0x14, 0x3c); (0x15, 0x3d); (0x16, 0x32); (0x17, 0x26); (0x18, 0x18);
     (0x19, 0x19); (0x1a, 0x3f); (0x1b, 0x27); (0x1c, 0x1c); (0x1d, 0x1d);
     (0x1e, 0x1e); (0x1f, 0x1f); (0x40, 0x20); (0x4a, 0x5b); (0x4b, 0x2e);
     (0x4c, 0x3c); (0x4d, 0x28); (0x4e, 0x2b); (0x4f, 0x21); (0x50, 0x26);
     (0x5a, 0x5d); (0x5b, 0x24); (0x5c, 0x2a); (0x5d, 0x29); (0x5e, 0x3b);
     (0x5f, 0x5e); (0x60, 0x2d); (0x61, 0x2f); (0x6a, 0x7c); (0x6b, 0x2c);
     (0x6c, 0x25); (0x6d, 0x5f); (0x6e, 0x3e); (0x6f, 0x3f); (0x7a, 0x3a);
     (0x7b, 0x23); (0x7c, 0x40); (0x7d, 0x27); (0x7e, 0x3d); (0x7f, 0x22);
     (0x81, 0x61); (0x82, 0x62); (0x83, 0x63); (0x84, 0x64); (0x85, 0x65);
     (0x86, 0x66); (0x87, 0x67); (0x88, 0x68); (0x89, 0x69); (0x91, 0x6a);
     (0x92, 0x6b); (0x93, 0x6c); (0x94, 0x6d); (0x95, 0x6e); (0x96, 0x6f);
     (0x97, 0x70); (0x98, 0x71); (0x99, 0x72); (0xa2, 0x73); (0xa3, 0x74);
     (0xa4, 0x75); (0xa5, 0x76); (0xa6, 0x77); (0xa7, 0x78); (0xa8, 0x79);
     (0xa9, 0x7a); (0xc1, 0x41); (0xc2, 0x42); (0xc3, 0x43); (0xc4, 0x44);
     (0xc5, 0x45); (0xc6, 0x46); (0xc7, 0x47); (0xc8, 0x48); (0xc9, 0x49);
     (0xd1, 0x4a); (0xd2, 0x4b); (0xd3, 0x4c); (0xd4, 0x4d); (0xd5, 0x4e);
     (0xd6, 0x4f); (0xd7, 0x50); (0xd8, 0x51); (0xd9, 0x52); (0xe2, 0x53);
     (0xe3, 0x54); (0xe4, 0x55); (0xe5, 0x56); (0xe6, 0x57); (0xe7, 0x58);
     (0xe8, 0x59); (0xe9, 0x5a); (0xf0, 0x30); (0xf1, 0x31); (0xf2, 0x32);
     (0xf3, 0x33); (0xf4, 0x34); (0xf5, 0x35); (0xf6, 0x36); (0xf7, 0x37);
     (0xf8, 0x38); (0xf9, 0x39); (0x79, 0x60); (0x7a, 0x3a); (0xbb, 0x5c);
     (0xbc, 0x7b); (0xbd, 0x7d); (0xbe, 0x7e)
    ].

Definition convert_ebcdic_byte (byte_val : Z) : Z :=
  default byte_val (EBCDIC_TO_ASCII_JAK !! byte_val).

Definition process_sosi_codes (config : ConversionConfig) (data : list byte)
  : list byte :=
  if negb (convert_sosi_to_space config) then data
  else
    map (fun b =>
           if (int_of_byte b =? sosi_so config)
              || (int_of_byte b =? sosi_si config)
           then x20 else b) data.

(** One iteration of the loop of [_convert_packed_decimal] over
    [enumerate(packed_data)]; [n] is [len(packed_data)]. *)
Definition packed_step (n : Z) (result : string) (ib : Z * byte) : string :=
  let byte_val := int_of_byte (snd ib) in
  let high_nibble := Z.land (Z.shiftr byte_val 4) 0x0F in
  let low_nibble := Z.land byte_val 0x0F in
  if fst ib =? n - 1 then
    let result :=
      if high_nibble <=? 9 then (result ++ Py.str_of_int high_nibble)%string
      else result in
    if low_nibble =? 0xD then ("-" ++ result)%string else result
  else
    let result :=
      if high_nibble <=? 9 then (result ++ Py.str_of_int high_nibble)%string
      else result in
    if low_nibble <=? 9 then (result ++ Py.str_of_int low_nibble)%string
    else result.

(** [result.encode('ascii')] of the digit string built by the loop (nothing
    in the [try] block raises, so the [except] branch is never taken). *)
Definition _convert_packed_decimal (packed_data : list byte) : list byte :=
  list_byte_of_string
    (fold_left (packed_step (Z.of_nat (length packed_data)))
       (enumerate_from 0 packed_data) EmptyString).

(** The display branch: table lookup byte by byte into a [bytearray]. *)
Fixpoint convert_bytes (data : list byte) (converted : list byte)
  : option (list byte) :=
  match data with
  | [] => Some converted
  | b :: data' =>
      match bytearray_append converted (convert_ebcdic_byte (int_of_byte b)) with
      | Some converted' => convert_bytes data' converted'
      | None => None
      end
  end.

(** [convert_field_data]: the converted bytes and the conversion tag;
    [None] when an exception is raised. *)
Definition convert_field_data (config : ConversionConfig)
    (field : LayoutField) (field_data : list byte)
  : option (list byte * string) :=
  if str_in (fld_type field)
       ["COMP"; "COMP-1"; "COMP-2"; "COMP-3"; "COMP-4"; "COMP-5"]
  then
    if String.eqb (fld_type field) "COMP-3"
    then Some (_convert_packed_decimal field_data, "PACKED")
    else Some (field_data, "BINARY")
  else
    match convert_bytes field_data [] with
    | Some converted => Some (process_sosi_codes config converted, "DISPLAY")
    | None => None
    end.

(** The bytes of one field cut out of a record, zero-padded when the field
    runs past the end of the record. *)
Definition field_slice (record_data : list byte) (field : LayoutField)
  : list byte :=
  let field_start := fld_position field - 1 in
  let field_end := field_start + fld_length field in
  let n := Z.of_nat (length record_data) in
  if field_end >? n then
    (Py.slice_from record_data field_start
     ++ Py.repeat_elem x00 (fld_length field - (n - field_start)))%list
  else Py.slice record_data field_start field_end.

(** *** The record loop of [convert_dataset]

    The input file is the byte sequence found under [input_file] when the
    run starts and the output file is the byte sequence written by the run;
    the two are separate streams.  Loading and updating the catalog, the
    log and the creation of the output directory do not touch the records
    or the statistics and are left out. *)







Section Pipeline.

Variables decode_shift_jis decode_utf_8 decode_cp932
  : list byte -> option string.

(** [write_raises i]: the environment makes [outfile.write] raise for the
    record of index [i] (nothing is written then). *)
Variable write_raises : Z -> bool.

Variable config : ConversionConfig.


(** Padding with spaces up to [record_length], then truncation to it. *)
Definition fit_record (converted_record : list byte) : list byte :=
  let n := Z.of_nat (length converted_record) in
  let padded :=
    if n <? record_length config
    then (converted_record ++ Py.repeat_elem x20 (record_length config - n))%list
    else converted_record in
  if Z.of_nat (length padded) >? record_length config
  then Py.slice padded 0 (record_length config)
  else padded.







End Pipeline.

End EBCDICDatasetConverter.

Import EnhancedCOBOLParser Layout EBCDICDatasetConverter.

(** ** The specification's statements, as definitions

    These follow the words of the specification and of the claims; the
    theorems below compare them with the functions of the source. *)

Module Spec.

(** *** Picture clauses *)

(** The number of occurrences of [a] in [s]. *)
Fixpoint count_char (a : ascii) (s : string) : Z :=
  match s with
  | EmptyString => 0
  | String d s' => (if Ascii.eqb a d then 1 else 0) + count_char a s'
  end.

(** The number of picture symbols ([9], [X], [A], [N]) in [s]. *)
Fixpoint count_symbols (s : string) : Z :=
  match s with
  | EmptyString => 0
  | String d s' => (if is_pic_symbol d then 1 else 0) + count_symbols s'
  end.

(** The length of the longest run of consecutive [a]s in [s]; [cur] is the
    length of the run being read and [best] the longest one seen. *)
Fixpoint longest_run_from (a : ascii) (cur best : Z) (s : string) : Z :=
  match s with
  | EmptyString => Z.max cur best
  | String d s' =>
      if Ascii.eqb a d then longest_run_from a (cur + 1) best s'
      else longest_run_from a 0 (Z.max cur best) s'
  end.

(** The digit count in the words of the specification: the longest run of
    one of the symbols [9], [X], [A], [N], and 1 when there is none. *)
Definition longest_run_count (s : string) : Z :=
  let best :=
    fold_left (fun m cl => Z.max m (longest_run_from (fst cl) 0 0 s))
      symbol_classes 0 in
  if best =? 0 then 1 else best.

(** *** Field offsets *)

(** The running offset after field [f]: advanced by the length of [f]
    unless [f] redefines another field. *)
Definition next_offset (f : LayoutField) : Z :=
  if negb (Py.truthy_opt (fld_redefines f))
  then fld_position f + fld_length f
  else fld_position f.

(** The fields are laid out by one running offset that starts at [p]. *)
Fixpoint laid_out_from (p : Z) (fields : list LayoutField) : Prop :=
  match fields with
  | [] => True
  | f :: fields' => fld_position f = p /\ laid_out_from (next_offset f) fields'
  end.

(** The running offset after all of [fields], starting at [p]. *)
Definition end_offset (p : Z) (fields : list LayoutField) : Z :=
  fold_left (fun _ f => next_offset f) fields p.

(** *** Packed decimal and the translation table *)

(** The two 4-bit halves of a byte. *)
Definition high_nibble (b : byte) : Z :=
  Z.land (Z.shiftr (int_of_byte b) 4) 0x0F.
Definition low_nibble (b : byte) : Z := Z.land (int_of_byte b) 0x0F.

(** A nibble of value at most 9 is one decimal digit character; a larger
    one is dropped. *)
Definition nibble_digit (n : Z) : string :=
  if n <=? 9 then String (ascii_of_N (Z.to_N (48 + n))) EmptyString
  else EmptyString.

(** The digits of a packed-decimal value: both nibbles of every byte but
    the last, and the high nibble of the last. *)
Fixpoint packed_digits (data : list byte) : string :=
  match data with
  | [] => EmptyString
  | [b] => nibble_digit (high_nibble b)
  | b :: rest =>
      (nibble_digit (high_nibble b) ++ nibble_digit (low_nibble b)
       ++ packed_digits rest)%string
  end.

(** The sign prefix: [-] when the low nibble of the last byte is [0xD]. *)
Definition packed_sign (data : list byte) : string :=
  match last data with
  | Some b => if low_nibble b =? 0xD then "-" else EmptyString
  | None => EmptyString
  end.

(** The byte the translation table gives for [b] ([b] itself when the table
    has no entry). *)
Definition translate_byte (b : byte) : byte :=
  default b (Byte.of_N (Z.to_N (convert_ebcdic_byte (int_of_byte b)))).

(** *** Records of a run *)




End Spec.

(** ** Notions used in the proofs only *)

Module Inv.

(** [s] without its leading [a]s: what is left after a greedy match of
    [a*]. *)
Fixpoint drop_run (a : ascii) (s : string) : string :=
  match s with
  | EmptyString => EmptyString
  | String d s' => if Ascii.eqb a d then drop_run a s' else s
  end.

(** The invariant of the parser's loop over the lines. *)
Definition parser_inv (st : pstate) : Prop :=
  Spec.laid_out_from 1 (fst st) /\ snd st = Spec.end_offset 1 (fst st).


End Inv.

(** ** Sample inputs *)

Module Sample.

(** A stand-in for a codec that rejects the file. *)
Definition rejecting_codec : list byte -> option string := fun _ => None.

Definition config (layout : option string) (reclen : Z) : ConversionConfig :=
  {| input_file := "/data/assets/ebcdic/CUST.ebc";
     output_file := "/tmp/a.out";
     layout_file := layout; record_length := reclen; encoding := "JAK";
     sosi_so := 0x28; sosi_si := 0x29; convert_sosi_to_space := true;
     catalog_path := "/home/aspuser/app/config/catalog.json";
     dataset_name := None; volume := "DISK01"; library := "TESTLIB";
     update_catalog := true |}.

Definition field (name type picture : string) (length position : Z)
  : LayoutField :=
  {| fld_name := name; fld_level := "03"; fld_type := type;
     fld_picture := picture; fld_length := length; fld_position := position;
     fld_occurs := 1; fld_redefines := None; fld_value := None;
     fld_sign := None; fld_usage := None; fld_description := EmptyString |}.

(** A two-field layout. *)
Definition layout_text : string :=
  "      * customer record
      01  CUSTOMER-RECORD.
          03  CUST-ID     PIC 9(3).
          03  CUST-NAME   PIC X(5).
".

(** A layout with fields that redefine the preceding field and an earlier
    one. *)
Definition overlay_text : string :=
  "      01  CUSTOMER-RECORD.
          03  CUST-ID     PIC 9(3).
          03  CUST-NAME   PIC X(5).
          03  CUST-KANA   PIC X(5) REDEFINES CUST-NAME.
          03  CUST-CODE   PIC X(3) REDEFINES CUST-ID.
          03  BALANCE     PIC S9(3) PACKED-DECIMAL.
".

(** A layout of comments only; the second line is not ASCII. *)
Definition comment_bytes : list byte :=
  (list_byte_of_string "      * reserved
      * " ++ [x83; x8c; x83; x52] ++ list_byte_of_string "
")%list.

(** Two 8-byte records and two bytes of a third one. *)
Definition input_data : list byte :=
  [xf0; xf0; xf1; xe3; xc1; xd9; xd6; x40;
   xf0; xf0; xf2; x28; xc8; xc1; x29; x40;
   xf0; xf0].

Definition files : gmap string (list byte) :=
  <["/layout/CUST.LAYOUT" := list_byte_of_string layout_text]>
    (<["/layout/OVERLAY.LAYOUT" := list_byte_of_string overlay_text]>
       (<["/layout/EMPTY.LAYOUT" := comment_bytes]>
          (<["/data/assets/ebcdic/CUST.ebc" := input_data]> ∅))).

(** What the parser makes of the two sample layouts. *)
Definition fields_of (path : string) : list LayoutField :=
  match
    parse_layout_file rejecting_codec rejecting_codec rejecting_codec
      (config (Some path) 8) files
  with
  | Ok fields => fields
  | Raise _ => []
  end.


Definition overlay_fields : list LayoutField :=
  Eval vm_compute in fields_of "/layout/OVERLAY.LAYOUT".



End Sample.

(** ** The layout of the EBCDIC code page, as the table's comments give it *)

Module Ebcdic.

(** The code of the decimal digit [d]. *)
Definition digit (d : Z) : Z := 0xF0 + d.

(** The code of the [k]-th upper-case letter ([A] is 0): A-I from [0xC1],
    J-R from [0xD1], S-Z from [0xE2]. *)
Definition upper_letter (k : Z) : Z :=
  if k <? 9 then 0xC1 + k
  else if k <? 18 then 0xD1 + (k - 9)
  else 0xE2 + (k - 18).

(** The code of the [k]-th lower-case letter: a-i from [0x81], j-r from
    [0x91], s-z from [0xA2]. *)
Definition lower_letter (k : Z) : Z :=
  if k <? 9 then 0x81 + k
  else if k <? 18 then 0x91 + (k - 9)
  else 0xA2 + (k - 18).

(** An ASCII decimal digit. *)
Definition is_ascii_digit (b : byte) : Prop :=
  0x30 <= int_of_byte b <= 0x39.

End Ebcdic.

(** ** Further notions of the specification *)

Module Shape.

(** A line of the layout that the parser skips before it tries the field
    pattern: blank, or a comment starting with [*] or [#]. *)
Definition ignored_line (line : string) : bool :=
  let stripped := Py.strip (Py.rstrip line) in
  negb (Py.truthy stripped)
  || Py.startswith "*" stripped || Py.startswith "#" stripped.

(** The bytes that fields without REDEFINES occupy. *)
Fixpoint occupied (fields : list LayoutField) : Z :=
  match fields with
  | [] => 0
  | f :: fields' =>
      (if Py.truthy_opt (fld_redefines f) then 0 else fld_length f)
      + occupied fields'
  end.

(** Every digit nibble of a packed-decimal value is a decimal digit: both
    nibbles of every byte but the last, and the high nibble of the last. *)
Fixpoint valid_packed (data : list byte) : Prop :=
  match data with
  | [] => True
  | [b] => Spec.high_nibble b <= 9
  | b :: rest =>
      Spec.high_nibble b <= 9 /\ Spec.low_nibble b <= 9 /\ valid_packed rest
  end.

(** The field is one that the parser builds from a line that matches the
    field pattern. *)
Definition emitted (f : LayoutField) : Prop :=
  exists line m p,
    Re.re_match field_re line = Some m /\ field_of_match m p = Some f.

(** Every character of the text is in the class [p]. *)
Fixpoint all_chars (p : ascii -> bool) (s : string) : Prop :=
  match s with
  | EmptyString => True
  | String c s' => p c = true /\ all_chars p s'
  end.

(** The text holds no carriage return. *)
Fixpoint no_cr (s : string) : Prop :=
  match s with
  | EmptyString => True
  | String c s' => c <> "013"%char /\ no_cr s'
  end.



End Shape.

(** ** A further sample layout *)

Module Cases.

(** A layout that spells its usages the way the sample layout of the
    source does. *)
Definition usage_text : string :=
  "      01  EMPLOYEE-RECORD.
          03  EMPLOYEE-ID     PIC 9(5).
          03  SALARY          PIC 9(7)V99 COMP-3.
          03  MANAGER-FLAG    PIC 9 COMP.
          03  BONUS           PIC 9(5) PACKED-DECIMAL.
          03  COUNTER         PIC 9(4) BINARY.
".

Definition files : gmap string (list byte) :=
  <["/layout/USAGE.LAYOUT" := list_byte_of_string usage_text]> Sample.files.

Definition fields_of (path : string) : list LayoutField :=
  match
    parse_layout_file Sample.rejecting_codec Sample.rejecting_codec
      Sample.rejecting_codec (Sample.config (Some path) 8) files
  with
  | Ok fields => fields
  | Raise _ => []
  end.

Definition usage_fields : list LayoutField :=
  Eval vm_compute in fields_of "/layout/USAGE.LAYOUT".

End Cases.

(** ** What a pattern matches

    The language of a pattern, for reasoning about what the matcher
    captures: [matches r w] says that [r] can consume exactly the text
    [w]. *)

Module ReSem.

Import Re.

Inductive matches : regex -> string -> Prop :=
| m_eps : matches Eps EmptyString
| m_cls p a : p a = true -> matches (Cls p) (String a EmptyString)
| m_seq r1 r2 w1 w2 :
    matches r1 w1 -> matches r2 w2 -> matches (Seq r1 r2) (w1 ++ w2)
| m_alt_l r1 r2 w : matches r1 w -> matches (Alt r1 r2) w
| m_alt_r r1 r2 w : matches r2 w -> matches (Alt r1 r2) w
| m_opt_none r : matches (Opt r) EmptyString
| m_opt_some r w : matches r w -> matches (Opt r) w
| m_star_nil r : matches (Star r) EmptyString
| m_star_cons r w1 w2 :
    matches r w1 -> matches (Star r) w2 -> matches (Star r) (w1 ++ w2)
| m_grp n r w : matches r w -> matches (Grp n r) w
| m_eos : matches Eos EmptyString.

(** Every capture satisfies the property [G] of its group. *)
Definition captured (G : nat -> string -> Prop) (c : caps) : Prop :=
  Forall (fun nw => G (fst nw) (snd nw)) c.

(** Whatever a group of [r] can consume satisfies the property [G] of the
    group. *)
Fixpoint groups_ok (G : nat -> string -> Prop) (r : regex) : Prop :=
  match r with
  | Eps | Cls _ | Eos => True
  | Seq r1 r2 | Alt r1 r2 => groups_ok G r1 /\ groups_ok G r2
  | Opt r1 | Star r1 => groups_ok G r1
  | Grp n r1 => (forall w, matches r1 w -> G n w) /\ groups_ok G r1
  end.

(** The groups that every match of [r] sets. *)
Fixpoint mandatory (r : regex) : list nat :=
  match r with
  | Eps | Cls _ | Eos | Alt _ _ | Opt _ | Star _ => []
  | Seq r1 r2 => mandatory r1 ++ mandatory r2
  | Grp n r1 => n :: mandatory r1
  end.

(** How the captures [c'] after a match of [r] relate to the captures [c]
    before it. *)
Definition extends (G : nat -> string -> Prop) (r : regex) (c c' : caps)
  : Prop :=
  (captured G c -> captured G c')
  /\ (forall n, is_Some (group c n) \/ In n (mandatory r) ->
                is_Some (group c' n)).

(** What the field pattern allows in each of its groups. *)
Definition field_group (n : nat) (w : string) : Prop :=
  match n with
  | 1%nat | 5%nat => Shape.all_chars Py.is_digit w /\ w <> EmptyString
  | 2%nat | 6%nat => Shape.all_chars is_name_char w /\ w <> EmptyString
  | 3%nat => Shape.all_chars is_pic_char w /\ w <> EmptyString
  | 4%nat =>
      In (Py.upper w)
        ["COMP"; "COMP-1"; "COMP-2"; "COMP-3"; "COMP-4"; "COMP-5";
         "DISPLAY"; "PACKED-DECIMAL"; "BINARY"; "INDEX"; "POINTER"]
  | 7%nat => Shape.all_chars not_dot w /\ w <> EmptyString
  | 8%nat => Shape.all_chars not_newline w
  | _ => True
  end.

(** What the parenthesis pattern of the picture calculator allows in its
    groups. *)
Definition paren_group (n : nat) (w : string) : Prop :=
  match n with
  | 1%nat => exists c, w = String c EmptyString /\ is_pic_symbol c = true
  | 2%nat => Shape.all_chars Py.is_digit w /\ w <> EmptyString
  | _ => True
  end.

End ReSem.

(** ** Catalog metadata bridge ([load_catalog_metadata],
       [update_catalog_entry])

    The catalog is a JSON file.  [json.load] and [json.dump] are taken as
    inverse to each other, so the file is modelled by the JSON value it
    holds; the two time stamps that [update_catalog_entry] takes from the
    clock are parameters. *)

Module Catalog.

(** A JSON value as [json.load] returns it. *)
#[warnings="-register-all"]
Inductive json : Type :=
| JNull
| JBool (b : bool)
| JInt (n : Z)
| JFloat (repr : string)
| JStr (s : string)
| JArr (l : list json)
| JObj (m : gmap string json).

(** The catalog file: absent, present but not loadable ([open] or
    [json.load] raises), or holding a JSON value. *)
Inductive catalog_file : Type :=
| Missing
| Unreadable
| Content (catalog : json).

(** [key in s] for two strings: [key] occurs in [s]. *)
Fixpoint is_substring (key s : string) : bool :=
  String.prefix key s
  || match s with
     | EmptyString => false
     | String _ s' => is_substring key s'
     end.

(** [key in v]: [None] stands for the [TypeError] on a value that is not
    iterable. *)
Definition contains (key : string) (v : json) : option bool :=
  match v with
  | JObj m => Some (bool_decide (is_Some (m !! key)))
  | JArr l =>
      Some (existsb (fun x => match x with
                              | JStr s => String.eqb s key
                              | _ => false
                              end) l)
  | JStr s => Some (is_substring key s)
  | JNull | JBool _ | JInt _ | JFloat _ => None
  end.

(** [v[key]] for a string [key]: [None] stands for the [KeyError] or
    [TypeError]. *)
Definition getitem (v : json) (key : string) : option json :=
  match v with
  | JObj m => m !! key
  | _ => None
  end.

(** [load_catalog_metadata]: every exception inside the [try] gives
    [None]. *)
Definition load_catalog_metadata (config : ConversionConfig)
    (file : catalog_file) : option json :=
  match file with
  | Missing => None
  | Unreadable => None
  | Content catalog =>
      match contains (volume config) catalog with
      | Some true =>
          match getitem catalog (volume config) with
          | Some volume_data =>
              match contains (library config) volume_data with
              | Some true =>
                  match dataset_name config with
                  | Some name =>
                      if Py.truthy name then
                        match getitem volume_data (library config) with
                        | Some library_data =>
                            match contains name library_data with
                            | Some true => getitem library_data name
                            | _ => None
                            end
                        | None => None
                        end
                      else None
                  | None => None
                  end
              | _ => None
              end
          | None => None
          end
      | _ => None
      end
  end.

(** [d.setdefault(key, {})] followed by a use of the result as a dict: the
    dict found under [key], a new empty one when [key] is absent, and
    [None] for the [AttributeError] on a value that is not a dict. *)
Definition setdefault_dict (d : gmap string json) (key : string)
  : option (gmap string json) :=
  match d !! key with
  | None => Some ∅
  | Some (JObj m) => Some m
  | Some _ => None
  end.

(** The ["CONVERSION"] block written by [update_catalog_entry]. *)
Definition conversion_block (config : ConversionConfig) (st : stats)
    (conversion_date : string) : gmap string json :=
  Py.dict_of_list
    [("SOURCE_ENCODING", JStr (encoding config));
     ("SOURCE_FILE", JStr (input_file config));
     ("LAYOUT_FILE",
      match layout_file config with Some p => JStr p | None => JNull end);
     ("CONVERTED_RECORDS", JInt (records_converted st));
     ("CONVERSION_DATE", JStr (conversion_date ++ "Z"))].

(** The entries that [update_catalog_entry] puts into the dataset's
    metadata. *)
Definition conversion_metadata (config : ConversionConfig) (st : stats)
    (updated conversion_date : string) : gmap string json :=
  Py.dict_of_list
    [("TYPE", JStr "DATASET");
     ("RECTYPE", JStr "FB");
     ("RECLEN", JInt (record_length config));
     ("ENCODING", JStr "ascii");
     ("DESCRIPTION",
      JStr ("Converted from EBCDIC (" ++ encoding config ++ ")"));
     ("UPDATED", JStr (updated ++ "Z"));
     ("CONVERSION", JObj (conversion_block config st conversion_date))].

(** [update_catalog_entry]: the catalog file after the call.  [updated] and
    [conversion_date] are the two readings of the clock.  An exception
    before the file is opened for writing leaves it as it was; the write
    itself is taken to succeed. *)
Definition update_catalog_entry (config : ConversionConfig) (st : stats)
    (updated conversion_date : string) (file : catalog_file)
  : catalog_file :=
  if negb (update_catalog config)
     || negb (Py.truthy_opt (dataset_name config))
  then file
  else
    match file, dataset_name config with
    | Content (JObj catalog), Some name =>
        match setdefault_dict catalog (volume config) with
        | Some volume_data =>
            match setdefault_dict volume_data (library config) with
            | Some library_data =>
                match setdefault_dict library_data name with
                | Some dataset_data =>
                    let dataset_data :=
                      conversion_metadata config st updated conversion_date
                      ∪ dataset_data in
                    Content
                      (JObj
                         (<[volume config :=
                              JObj
                                (<[library config :=
                                     JObj (<[name := JObj dataset_data]>
                                             library_data)]>
                                   volume_data)]>
                            catalog))
                | None => file
                end
            | None => file
            end
        | None => file
        end
    | _, _ => file
    end.

(** The catalog holds metadata [md] for the dataset that [config] names:
    the volume, the library and the dataset name lead through three nested
    objects. *)
Definition holds (config : ConversionConfig) (file : catalog_file)
    (md : json) : Prop :=
  exists catalog volume_data library_data name,
    file = Content (JObj catalog)
    /\ catalog !! volume config = Some (JObj volume_data)
    /\ volume_data !! library config = Some (JObj library_data)
    /\ dataset_name config = Some name
    /\ name <> EmptyString
    /\ library_data !! name = Some md.

(** The metadata that [update_catalog_entry] finds for the dataset (empty
    for a dataset, library or volume that the catalog does not have yet);
    [None] when the call gives up: no dataset name, a catalog that cannot
    be loaded or is not an object, or a value on the way that is not an
    object. *)
Definition dataset_entry (config : ConversionConfig) (file : catalog_file)
  : option (gmap string json) :=
  match file, dataset_name config with
  | Content (JObj catalog), Some name =>
      if Py.truthy name then
        volume_data ← setdefault_dict catalog (volume config);
        library_data ← setdefault_dict volume_data (library config);
        setdefault_dict library_data name
      else None
  | _, _ => None
  end.

(** What selects a dataset in the catalog. *)
Definition dataset_key (config : ConversionConfig)
  : string * string * option string :=
  (volume config, library config, dataset_name config).

Section Run.

Variables decode_shift_jis decode_utf_8 decode_cp932
  : list byte -> option string.
Variable write_raises : Z -> bool.
Variable config : ConversionConfig.


End Run.

(** A catalog with one dataset, and a configuration that names it. *)
Definition sample_catalog : catalog_file :=
  Content
    (JObj {[ "DISK01" :=
               JObj {[ "TESTLIB" :=
                         JObj {[ "CUST.SAM" :=
                                   JObj {[ "TYPE" := JStr "DATASET";
                                           "OWNER" := JStr "admin" ]} ]} ]} ]}).

Definition sample_config (name : string) : ConversionConfig :=
  {| input_file := "/data/assets/ebcdic/CUST.ebc";
     output_file := "/tmp/a.out";
     layout_file := None; record_length := 8; encoding := "JAK";
     sosi_so := 0x28; sosi_si := 0x29; convert_sosi_to_space := true;
     catalog_path := "/home/aspuser/app/config/catalog.json";
     dataset_name := Some name; volume := "DISK01"; library := "TESTLIB";
     update_catalog := true |}.

End Catalog.

(** ** Basic facts about strings and bytes *)

Lemma string_app_cons (a : ascii) (s t : string) :
  (String a s ++ t)%string = String a (s ++ t).
Proof. reflexivity. Qed.

Lemma string_app_nil_l (s : string) : ("" ++ s)%string = s.
Proof. reflexivity. Qed.

Lemma string_app_nil_r (s : string) : (s ++ "")%string = s.
Proof.
  induction s as [|a s IH]; [reflexivity|].
  now rewrite string_app_cons, IH.
Qed.

Lemma string_app_assoc (s t u : string) :
  ((s ++ t) ++ u)%string = (s ++ t ++ u)%string.
Proof.
  induction s as [|a s IH]; [reflexivity|].
  now rewrite !string_app_cons, IH.
Qed.

Lemma string_length_app (s t : string) :
  String.length (s ++ t) = (String.length s + String.length t)%nat.
Proof.
  induction s as [|a s IH]; [reflexivity|].
  rewrite string_app_cons; simpl. now rewrite IH.
Qed.

Lemma string_length_substring (n : nat) (s : string) :
  (n <= String.length s)%nat -> String.length (substring 0 n s) = n.
Proof.
  revert s; induction n as [|n IH]; intros [|a s] Hn; simpl in *;
    try reflexivity; try lia.
  rewrite IH; [reflexivity | lia].
Qed.

(** Every table entry is a byte, so filling the [bytearray] never raises. *)
Lemma bytearray_append_table (acc : list byte) (b : byte) :
  bytearray_append acc (convert_ebcdic_byte (int_of_byte b))
  = Some (acc ++ [Spec.translate_byte b])%list.
Proof. destruct b; vm_compute; reflexivity. Qed.

Lemma convert_bytes_total (data acc : list byte) :
  convert_bytes data acc = Some (acc ++ map Spec.translate_byte data)%list.
Proof.
  revert acc; induction data as [|b data IH]; intros acc;
    cbn [convert_bytes map].
  - now rewrite app_nil_r.
  - rewrite bytearray_append_table, IH, <- app_assoc. reflexivity.
Qed.

(** *** Picture clauses, field kinds and field slices *)

(** C1 (the source at the input of the claim): for the picture [S9(7)V99]
    the calculator takes the parenthesised count of the first repetition and
    returns at once, so the digit count is 7 and a packed-decimal field gets
    (7+1)/2 = 4 bytes, where the claim has 9 digits and 5 bytes. *)
Theorem C1_packed_S9_7_V99_measured :
  parse_picture_clause "S9(7)V99" = (7, "NUMERIC")
  /\ calculate_field_length (Sample.field "SALARY" "COMP-3" "S9(7)V99" 0 1) = 4
  /\ map (fun f => (fld_type f, fld_picture f, fld_length f))
       (fst (parse_lines "03 SALARY PIC S9(7)V99 PACKED-DECIMAL."))
     = [("COMP-3", "S9(7)V99", 4)].
Proof. vm_compute. repeat split; reflexivity. Qed.

Lemma str_in_cases (x : string) (l : list string) :
  str_in x l = true -> In x l.
Proof.
  unfold str_in. rewrite existsb_exists.
  intros (y & Hy & Heq). apply String.eqb_eq in Heq. now subst.
Qed.

(** C2 (as stated, refuted): an INDEX field holding the EBCDIC space [0x40]
    comes out as the ASCII space [0x20], and a POINTER field holding the
    shift-out byte [0x28] comes out as [0x20]: both take the display path. *)
Lemma C2_index_pointer_transcoded :
  convert_field_data (Sample.config None 80)
    (Sample.field "IDX" "INDEX" "X(1)" 1 1) [x40]
  = Some ([x20], "DISPLAY")
  /\ convert_field_data (Sample.config None 80)
       (Sample.field "PTR" "POINTER" "X(1)" 1 1) [x28]
     = Some ([x20], "DISPLAY")
  /\ [x20] <> [x40] /\ [x20] <> [x28].
Proof. vm_compute. repeat split; congruence. Qed.

(** C2 (amended): a field of type COMP, COMP-1, COMP-2, COMP-4 or COMP-5
    (kinds Binary, Comp1, Comp2) is returned byte for byte, tagged BINARY; a
    field of type INDEX or POINTER is transcoded like a display field: every
    byte goes through the translation table and then through the SOSI
    pass. *)
Theorem C2_binary_pass_through (config : ConversionConfig)
    (field : LayoutField) (field_data : list byte) :
  (str_in (fld_type field) ["COMP"; "COMP-1"; "COMP-2"; "COMP-4"; "COMP-5"]
   = true ->
   convert_field_data config field field_data = Some (field_data, "BINARY"))
  /\ (str_in (fld_type field) ["INDEX"; "POINTER"] = true ->
      convert_field_data config field field_data
      = Some (process_sosi_codes config (map Spec.translate_byte field_data),
              "DISPLAY")).
Proof.
  split; intros Hin; apply str_in_cases in Hin; cbn [In] in Hin;
    unfold convert_field_data;
    repeat (destruct Hin as [<- | Hin]; [try reflexivity|]);
    try contradiction;
    cbn [str_in existsb String.eqb Ascii.eqb Bool.eqb orb];
    rewrite convert_bytes_total; reflexivity.
Qed.

Lemma C2_binary_pass_through_witness :
  (str_in "COMP" ["COMP"; "COMP-1"; "COMP-2"; "COMP-4"; "COMP-5"] = true
   /\ convert_field_data (Sample.config None 80)
        (Sample.field "FLAG" "COMP" "9" 2 1) [x40; x28]
      = Some ([x40; x28], "BINARY"))
  /\ (str_in "INDEX" ["INDEX"; "POINTER"] = true
      /\ convert_field_data (Sample.config None 80)
           (Sample.field "IDX" "INDEX" "X(2)" 2 1) [x40; xc1]
         = Some ([x20; x41], "DISPLAY")).
Proof.
  split; (split; [reflexivity|]).
  - exact (proj1 (C2_binary_pass_through (Sample.config None 80)
                    (Sample.field "FLAG" "COMP" "9" 2 1) [x40; x28])
             eq_refl).
  - exact (proj2 (C2_binary_pass_through (Sample.config None 80)
                    (Sample.field "IDX" "INDEX" "X(2)" 2 1) [x40; xc1])
             eq_refl).
Defined.


(** C5 (the source at a field that starts beyond the record): with a
    4-byte record and a 2-byte field at position 7, the slice is empty and
    the padding has 2 - (4 - 6) = 4 zero bytes, twice the declared length.
    The layout that produces such a field is accepted for 4-byte records
    with a warning only. *)
Theorem C5_field_beyond_record_end :
  map (fun f => (fld_name f, fld_position f, fld_length f))
    (fst (parse_lines "03 A PIC X(6).
03 B PIC X(2)."))
  = [("A", 1, 6); ("B", 7, 2)]
  /\ field_slice [xf1; xf2; xf3; xf4] (Sample.field "B" "PIC" "X(2)" 2 7)
     = [x00; x00; x00; x00]
  /\ Z.of_nat (length (field_slice [xf1; xf2; xf3; xf4]
                         (Sample.field "B" "PIC" "X(2)" 2 7))) <> 2.
Proof. vm_compute. repeat split; congruence. Qed.

(** *** The fall-back count of [parse_picture_clause] *)

Lemma drop_run_length (a : ascii) (s : string) :
  (String.length (Inv.drop_run a s) <= String.length s)%nat.
Proof.
  induction s as [|d s IH]; cbn [Inv.drop_run]; [lia|].
  destruct (Ascii.eqb a d); cbn [String.length]; lia.
Qed.

Lemma count_char_drop_run (a : ascii) (s : string) :
  Spec.count_char a s
  = Z.of_nat (String.length s - String.length (Inv.drop_run a s))
    + Spec.count_char a (Inv.drop_run a s).
Proof.
  induction s as [|d s IH]; cbn [Inv.drop_run Spec.count_char]; [reflexivity|].
  destruct (Ascii.eqb a d) eqn:Had.
  - pose proof (drop_run_length a s). cbn [String.length]. rewrite IH.
    replace (S (String.length s) - String.length (Inv.drop_run a s))%nat
      with (S (String.length s - String.length (Inv.drop_run a s))) by lia.
    lia.
  - cbn [Spec.count_char String.length]. rewrite Had, Nat.sub_diag. lia.
Qed.

(** Against a continuation that always accepts, the greedy loop of [a*]
    eats the whole run of [a]s. *)
Lemma star_chr (a : ascii) (k : Re.cont) :
  (forall s c, k s c <> None) ->
  forall (fuel : nat) (s : string) (c : Re.caps),
    (String.length s < fuel)%nat ->
    Re.star_loop (Re.run (Re.Chr a)) k fuel s c = k (Inv.drop_run a s) c.
Proof.
  intros Hk. induction fuel as [|fuel IH]; intros s c Hlen; [lia|].
  destruct s as [|d s]; cbn [Re.star_loop Re.run Re.Chr Inv.drop_run];
    [reflexivity|].
  destruct (Ascii.eqb a d); [|reflexivity].
  cbn [String.length] in *.
  destruct (Nat.ltb_spec (String.length s) (S (String.length s))); [|lia].
  rewrite IH by lia.
  destruct (k (Inv.drop_run a s) c) eqn:Hks; [reflexivity|].
  now apply Hk in Hks.
Qed.

(** One attempt of [a+] at the head of [s]. *)
Lemma run_plus_chr (a : ascii) (s : string) :
  Re.run (Re.Grp 0 (Re.Plus (Re.Chr a))) s [] Re.accept
  = match s with
    | String d s' =>
        if Ascii.eqb a d
        then Some (Inv.drop_run a s', [(0%nat, Re.consumed s (Inv.drop_run a s'))])
        else None
    | EmptyString => None
    end.
Proof.
  destruct s as [|d s]; [reflexivity|].
  cbn [Re.run Re.Plus Re.Chr]. destruct (Ascii.eqb a d); [|reflexivity].
  apply (star_chr a
           (fun s' c' =>
              Re.accept s' ((0%nat, Re.consumed (String d s) s') :: c'))).
  - intros s' c'. discriminate.
  - lia.
Qed.

(** The lengths of the matches of [a+] add up to the number of [a]s. *)
Lemma findall_plus_chr (a : ascii) (fuel : nat) :
  forall s : string,
    (String.length s < fuel)%nat ->
    fold_right (fun m n => Py.len m + n) 0
      (Re.findall_from fuel (Re.Plus (Re.Chr a)) s)
    = Spec.count_char a s.
Proof.
  induction fuel as [|fuel IH]; intros s Hlen; [lia|].
  cbn [Re.findall_from]. rewrite run_plus_chr.
  destruct s as [|d s]; [reflexivity|].
  cbn [String.length Spec.count_char] in *.
  destruct (Ascii.eqb a d) eqn:Had.
  - pose proof (drop_run_length a s) as Hdrop.
    destruct (Nat.ltb_spec (String.length (Inv.drop_run a s))
                (S (String.length s))); [|lia].
    cbn [Re.group Nat.eqb default fold_right].
    rewrite IH by lia. unfold Py.len, Re.consumed, id.
    rewrite string_length_substring by (cbn [String.length]; lia).
    cbn [String.length]. rewrite (count_char_drop_run a s). lia.
  - rewrite IH by lia. lia.
Qed.

Lemma fold_left_add_len (name : string) (l : list string) (acc : Z * string) :
  fst (fold_left (fun (a : Z * string) (m : string) => (fst a + Py.len m, name))
         l acc)
  = fst acc + fold_right (fun m n => Py.len m + n) 0 l.
Proof.
  revert acc; induction l as [|m l IH]; intros acc; cbn [fold_left fold_right].
  - lia.
  - rewrite IH. cbn [fst]. lia.
Qed.

Lemma count_class_fst (working : string) (acc : Z * string)
    (cl : ascii * string) :
  fst (count_class working acc cl) = fst acc + Spec.count_char (fst cl) working.
Proof.
  unfold count_class. rewrite fold_left_add_len. unfold Re.findall.
  rewrite findall_plus_chr by lia. reflexivity.
Qed.

Lemma count_symbols_classes (s : string) :
  Spec.count_symbols s
  = Spec.count_char "9" s + Spec.count_char "X" s
    + Spec.count_char "A" s + Spec.count_char "N" s.
Proof.
  induction s as [|d s IH]; cbn [Spec.count_symbols Spec.count_char];
    [reflexivity|].
  rewrite IH. unfold is_pic_symbol.
  rewrite (Ascii.eqb_sym d "9"), (Ascii.eqb_sym d "X"),
    (Ascii.eqb_sym d "A"), (Ascii.eqb_sym d "N").
  destruct (Ascii.eqb_spec "9" d) as [<-|]; [cbn; lia|].
  destruct (Ascii.eqb_spec "X" d) as [<-|]; [cbn; lia|].
  destruct (Ascii.eqb_spec "A" d) as [<-|]; [cbn; lia|].
  destruct (Ascii.eqb_spec "N" d) as [<-|]; cbn; lia.
Qed.

(** C3 (as stated, refuted): [9X9] has no parenthesised repetition and its
    longest run of one symbol has length 1, but the calculator returns 3. *)
Lemma C3_longest_run_refuted :
  Re.search paren_re (working_picture "9X9") = None
  /\ Spec.longest_run_count (working_picture "9X9") = 1
  /\ fst (parse_picture_clause "9X9") = 3
  /\ fst (parse_picture_clause "9X9")
     <> Spec.longest_run_count (working_picture "9X9").
Proof. vm_compute. repeat split; congruence. Qed.

(** C3 (amended): without a parenthesised repetition in the measured
    picture, the digit count is the number of symbols [9], [X], [A], [N] in
    it (all runs added up), and 1 when there is none. *)
Theorem C3_digit_count_adds_runs (picture : string) :
  Re.search paren_re (working_picture picture) = None ->
  fst (parse_picture_clause picture)
  = Z.max (Spec.count_symbols (working_picture picture)) 1.
Proof.
  intros Hnone. unfold parse_picture_clause. rewrite Hnone.
  cbn [fst symbol_classes fold_left].
  rewrite !count_class_fst, count_symbols_classes. cbn [fst].
  now rewrite !Z.add_0_l.
Qed.

Lemma C3_digit_count_adds_runs_witness :
  Re.search paren_re (working_picture "9X9") = None
  /\ fst (parse_picture_clause "9X9") = 3.
Proof.
  split; [reflexivity|].
  exact (C3_digit_count_adds_runs "9X9" eq_refl).
Defined.

(** *** Packed-decimal decoding *)

Lemma str_of_int_digit (n : Z) :
  0 <= n <= 9 -> Py.str_of_int n = Spec.nibble_digit n.
Proof.
  intros Hn. rewrite <- (Z2Nat.id n) by lia.
  assert (Hk : (Z.to_nat n <= 9)%nat) by lia.
  revert Hk. generalize (Z.to_nat n) as k. intros k Hk.
  do 10 (destruct k as [|k]; [reflexivity|]).
  lia.
Qed.

Lemma nibble_nonneg (x : Z) : 0 <= Z.land x 0x0F.
Proof. apply Z.land_nonneg; right; lia. Qed.

(** Appending a nibble the way the loop does is appending its digit. *)
Lemma append_nibble (result : string) (n : Z) :
  0 <= n ->
  (if n <=? 9 then (result ++ Py.str_of_int n)%string else result)
  = (result ++ Spec.nibble_digit n)%string.
Proof.
  intros Hn. unfold Spec.nibble_digit at 1.
  destruct (Z.leb_spec n 9) as [Hle|Hgt].
  - rewrite str_of_int_digit by lia. unfold Spec.nibble_digit.
    destruct (Z.leb_spec n 9); [reflexivity | lia].
  - now rewrite string_app_nil_r.
Qed.

Lemma packed_step_last (n : Z) (result : string) (b : byte) :
  packed_step n result (n - 1, b)
  = ((if (Spec.low_nibble b =? 0xD)%Z then "-" else "")
     ++ result ++ Spec.nibble_digit (Spec.high_nibble b))%string.
Proof.
  unfold packed_step; cbn [fst snd]. rewrite Z.eqb_refl.
  rewrite append_nibble by apply nibble_nonneg.
  fold (Spec.low_nibble b) (Spec.high_nibble b).
  destruct (Spec.low_nibble b =? 13); reflexivity.
Qed.

Lemma packed_step_inner (n i : Z) (result : string) (b : byte) :
  i <> n - 1 ->
  packed_step n result (i, b)
  = (result ++ Spec.nibble_digit (Spec.high_nibble b)
     ++ Spec.nibble_digit (Spec.low_nibble b))%string.
Proof.
  intros Hi. unfold packed_step; cbn [fst snd].
  destruct (Z.eqb_spec i (n - 1)) as [|_]; [contradiction|].
  rewrite !append_nibble by apply nibble_nonneg.
  now rewrite string_app_assoc.
Qed.

Lemma packed_loop (data : list byte) :
  forall (i n : Z) (result : string),
    data <> [] ->
    n = i + Z.of_nat (length data) ->
    fold_left (packed_step n) (enumerate_from i data) result
    = (Spec.packed_sign data ++ result ++ Spec.packed_digits data)%string.
Proof.
  induction data as [|b data IH]; intros i n result Hne Hn; [contradiction|].
  destruct data as [|b' rest].
  - cbn [enumerate_from fold_left List.length] in *.
    replace i with (n - 1) by lia. apply packed_step_last.
  - assert (Hlen : n = (i + 1) + Z.of_nat (length (b' :: rest)))
      by (cbn [List.length] in *; lia).
    assert (Hi : i <> n - 1) by (cbn [List.length] in *; lia).
    change (Spec.packed_sign (b :: b' :: rest))
      with (Spec.packed_sign (b' :: rest)).
    change (Spec.packed_digits (b :: b' :: rest))
      with (Spec.nibble_digit (Spec.high_nibble b)
            ++ Spec.nibble_digit (Spec.low_nibble b)
            ++ Spec.packed_digits (b' :: rest))%string.
    remember (b' :: rest) as tl eqn:Htl.
    cbn [enumerate_from fold_left].
    rewrite packed_step_inner by exact Hi.
    rewrite (IH (i + 1) n) by (subst tl; first [discriminate | exact Hlen]).
    now rewrite !string_app_assoc.
Qed.

(** C8: on a non-empty byte sequence the packed-decimal decoder returns
    the digits of every nibble of value at most 9 of all bytes but the last
    (larger nibbles are dropped), then the digit of the high nibble of the
    last byte, with [-] in front exactly when the low nibble of the last
    byte is [0xD]; in particular [05 00 00 0C] decodes to [0500000] without
    a sign. *)
Theorem C8_packed_decimal_decode (data : list byte) :
  data <> [] ->
  _convert_packed_decimal data
  = list_byte_of_string (Spec.packed_sign data ++ Spec.packed_digits data)
  /\ _convert_packed_decimal [x05; x00; x00; x0c] = list_byte_of_string "0500000".
Proof.
  intros Hne. split; [|reflexivity].
  unfold _convert_packed_decimal.
  rewrite (packed_loop data 0 (Z.of_nat (length data)) "" Hne) by lia.
  reflexivity.
Qed.

Lemma C8_packed_decimal_decode_witness :
  [x12; xa3; x4d] <> [] /\
  _convert_packed_decimal [x12; xa3; x4d] = list_byte_of_string "-1234".
Proof.
  split; [discriminate|].
  exact (proj1 (C8_packed_decimal_decode [x12; xa3; x4d] ltac:(discriminate))).
Defined.

(** *** The running offset of the layout parser *)

Lemma laid_out_from_snoc (p : Z) (fields : list LayoutField)
    (f : LayoutField) :
  Spec.laid_out_from p fields ->
  fld_position f = Spec.end_offset p fields ->
  Spec.laid_out_from p (fields ++ [f]).
Proof.
  revert p; induction fields as [|g fields IH]; intros p Hlaid Hpos;
    cbn [app Spec.laid_out_from] in *.
  - split; [exact Hpos | exact I].
  - destruct Hlaid as [Hg Hrest]. split; [exact Hg|].
    apply IH; [exact Hrest | exact Hpos].
Qed.

Lemma end_offset_snoc (p : Z) (fields : list LayoutField) (f : LayoutField) :
  Spec.end_offset p (fields ++ [f]) = Spec.next_offset f.
Proof. unfold Spec.end_offset. now rewrite fold_left_app. Qed.

Lemma laid_out_from_lookup (fields : list LayoutField) :
  forall (p : Z) (i : nat) (f g : LayoutField),
    Spec.laid_out_from p fields ->
    fields !! i = Some f ->
    fields !! S i = Some g ->
    fld_position g = Spec.next_offset f.
Proof.
  induction fields as [|h fields IH]; intros p i f g Hlaid Hf Hg;
    [discriminate|].
  destruct Hlaid as [_ Hrest]. destruct i as [|i].
  - injection Hf as ->. destruct fields as [|g' fields]; [discriminate|].
    injection Hg as ->. now destruct Hrest.
  - exact (IH _ i f g Hrest Hf Hg).
Qed.

(** A field built from a matching line sits at the running offset, and
    keeps the REDEFINES name of the line. *)
Lemma field_of_match_position (m : Re.caps) (p : Z) (f : LayoutField) :
  field_of_match m p = Some f -> fld_position f = p.
Proof.
  unfold field_of_match.
  destruct (_ && _); [discriminate|]. now intros [= <-].
Qed.

Lemma parse_line_inv (st : pstate) (line : string) :
  Inv.parser_inv st -> Inv.parser_inv (parse_line st line).
Proof.
  intros [Hlaid Hcur]. unfold parse_line.
  destruct (_ || _); [now split|].
  destruct (Re.re_match field_re (Py.rstrip line)) as [m|]; [|now split].
  destruct (field_of_match m (snd st)) as [f|] eqn:Hf; [|now split].
  apply field_of_match_position in Hf.
  split; cbn [fst snd].
  - apply laid_out_from_snoc; [exact Hlaid | congruence].
  - rewrite end_offset_snoc. unfold Spec.next_offset. rewrite Hf.
    reflexivity.
Qed.

Lemma parse_lines_inv (content : string) : Inv.parser_inv (parse_lines content).
Proof.
  unfold parse_lines.
  assert (Hgen : forall lines st,
             Inv.parser_inv st -> Inv.parser_inv (fold_left parse_line lines st)).
  { induction lines as [|l lines IH]; intros st Hst; cbn [fold_left];
      [exact Hst|].
    apply IH, parse_line_inv, Hst. }
  apply Hgen. split; [exact I | reflexivity].
Qed.

(** What [parse_layout_file] returns was laid out by the running offset. *)
Lemma parse_layout_file_laid_out
    (d1 d2 d3 : list byte -> option string) (config : ConversionConfig)
    (fs : gmap string (list byte)) (fields : list LayoutField) :
  parse_layout_file d1 d2 d3 config fs = Ok fields ->
  Spec.laid_out_from 1 fields.
Proof.
  unfold parse_layout_file.
  destruct (layout_file config) as [path|]; [|now intros [= <-]].
  destruct (negb (Py.truthy path)); [now intros [= <-]|].
  destruct (fs !! path) as [raw|]; [|discriminate].
  destruct (read_with _ raw) as [content|]; [|discriminate].
  pose proof (parse_lines_inv content) as [Hlaid _].
  destruct (fst (parse_lines content)) as [|f l] eqn:Hfields; [discriminate|].
  now intros [= <-].
Qed.

(** The offset is not advanced by a field that redefines another one: the
    next field starts where the redefining field starts. *)
Lemma redefining_field_keeps_offset
    (d1 d2 d3 : list byte -> option string) (config : ConversionConfig)
    (fs : gmap string (list byte)) (fields : list LayoutField)
    (i : nat) (f g : LayoutField) :
  parse_layout_file d1 d2 d3 config fs = Ok fields ->
  fields !! i = Some f ->
  fields !! S i = Some g ->
  Py.truthy_opt (fld_redefines f) = true ->
  fld_position g = fld_position f.
Proof.
  intros Hparse Hf Hg Hred.
  rewrite (laid_out_from_lookup fields 1 i f g
             (parse_layout_file_laid_out _ _ _ _ _ _ Hparse) Hf Hg).
  unfold Spec.next_offset. now rewrite Hred.
Qed.

(** C9: in a parsed layout, a field that does not declare REDEFINES is
    followed by a field that starts at its position plus its length. *)
Theorem C9_running_offset
    (d1 d2 d3 : list byte -> option string) (config : ConversionConfig)
    (fs : gmap string (list byte)) (fields : list LayoutField)
    (i : nat) (f g : LayoutField) :
  parse_layout_file d1 d2 d3 config fs = Ok fields ->
  fields !! i = Some f ->
  fields !! S i = Some g ->
  fld_redefines f = None ->
  fld_position g = fld_position f + fld_length f.
Proof.
  intros Hparse Hf Hg Hred.
  rewrite (laid_out_from_lookup fields 1 i f g
             (parse_layout_file_laid_out _ _ _ _ _ _ Hparse) Hf Hg).
  unfold Spec.next_offset. now rewrite Hred.
Qed.

Lemma C9_running_offset_witness :
  parse_layout_file Sample.rejecting_codec Sample.rejecting_codec
    Sample.rejecting_codec (Sample.config (Some "/layout/OVERLAY.LAYOUT") 8)
    Sample.files
  = Ok Sample.overlay_fields
  /\ Sample.overlay_fields !! 0%nat
     = Some (Sample.field "CUST-ID" "PIC" "9(3)." 3 1)
  /\ Sample.overlay_fields !! 1%nat
     = Some (Sample.field "CUST-NAME" "PIC" "X(5)." 5 4)
  /\ fld_redefines (Sample.field "CUST-ID" "PIC" "9(3)." 3 1) = None
  /\ fld_position (Sample.field "CUST-NAME" "PIC" "X(5)." 5 4)
     = fld_position (Sample.field "CUST-ID" "PIC" "9(3)." 3 1)
       + fld_length (Sample.field "CUST-ID" "PIC" "9(3)." 3 1).
Proof.
  assert (Hparse :
            parse_layout_file Sample.rejecting_codec Sample.rejecting_codec
              Sample.rejecting_codec
              (Sample.config (Some "/layout/OVERLAY.LAYOUT") 8) Sample.files
            = Ok Sample.overlay_fields) by (vm_compute; reflexivity).
  split; [exact Hparse|]. split; [reflexivity|]. split; [reflexivity|].
  split; [reflexivity|].
  exact (C9_running_offset _ _ _ _ _ _ 0%nat _ _ Hparse eq_refl eq_refl eq_refl).
Defined.

(** C4 (the source on a layout with REDEFINES): CUST-KANA redefines
    CUST-NAME, which starts at 4, and CUST-CODE redefines CUST-ID, which
    starts at 1, but both are put at the running offset 9, where the next
    field BALANCE starts as well.  The offset is not advanced by the
    redefining fields; their position is not that of the field they name. *)
Theorem C4_redefines_position_measured :
  parse_layout_file Sample.rejecting_codec Sample.rejecting_codec
    Sample.rejecting_codec (Sample.config (Some "/layout/OVERLAY.LAYOUT") 8)
    Sample.files
  = Ok Sample.overlay_fields
  /\ map (fun f => (fld_name f, fld_redefines f, fld_position f, fld_length f))
       Sample.overlay_fields
     = [("CUST-ID", None, 1, 3);
        ("CUST-NAME", None, 4, 5);
        ("CUST-KANA", Some "CUST-NAME", 9, 5);
        ("CUST-CODE", Some "CUST-ID", 9, 3);
        ("BALANCE", None, 9, 2)].
Proof. split; vm_compute; reflexivity. Qed.



(** *** The record loop *)

Section RecordLoop.

Variables d1 d2 d3 : list byte -> option string.
Variable write_raises : Z -> bool.
Variable config : ConversionConfig.




Lemma process_sosi_codes_length (data : list byte) :
  length (process_sosi_codes config data) = length data.
Proof.
  unfold process_sosi_codes. destruct (negb _); [reflexivity|].
  apply length_map.
Qed.

Lemma fit_record_length (converted : list byte) :
  0 <= record_length config ->
  Z.of_nat (length (fit_record config converted)) = record_length config.
Proof.
  intros HL. unfold fit_record.
  destruct (Z.ltb_spec (Z.of_nat (length converted)) (record_length config))
    as [Hlt|Hge].
  - rewrite length_app. unfold Py.repeat_elem at 1 2. rewrite length_replicate.
    destruct (Z.gtb_spec
                (Z.of_nat (length converted
                           + Z.to_nat (record_length config
                                       - Z.of_nat (length converted))))
                (record_length config)) as [Hgt|_]; [lia|].
    rewrite length_app. unfold Py.repeat_elem. rewrite length_replicate. lia.
  - destruct (Z.gtb_spec (Z.of_nat (length converted)) (record_length config))
      as [Hgt|Hle]; [|lia].
    unfold Py.slice, Py.clamp_index. cbn [Z.ltb Z.compare].
    destruct (Z.ltb_spec (record_length config) 0); [lia|].
    rewrite length_take, length_drop. lia.
Qed.















End RecordLoop.







(** ** Further properties of the transcoder *)

(** *** SOSI neutralisation *)

(** X1: with the flag enabled and shift codes other than the space byte,
    no byte of the result equals the shift-out or the shift-in value. *)
Theorem sosi_codes_neutralised (config : ConversionConfig)
    (data : list byte) :
  convert_sosi_to_space config = true ->
  sosi_so config <> 0x20 ->
  sosi_si config <> 0x20 ->
  Forall (fun b => int_of_byte b <> sosi_so config
                   /\ int_of_byte b <> sosi_si config)
    (process_sosi_codes config data).
Proof.
  intros Hflag Hso Hsi. unfold process_sosi_codes.
  rewrite Hflag. cbn [negb]. apply List.Forall_forall. intros b Hin.
  apply in_map_iff in Hin as (a & Ha & _).
  destruct ((int_of_byte a =? sosi_so config)
            || (int_of_byte a =? sosi_si config)) eqn:Hcond.
  - subst b. change (int_of_byte x20) with 0x20. split; congruence.
  - subst a. apply orb_false_elim in Hcond as [H1 H2].
    now apply Z.eqb_neq in H1, H2.
Qed.

Lemma sosi_codes_neutralised_witness :
  convert_sosi_to_space (Sample.config None 80) = true
  /\ sosi_so (Sample.config None 80) <> 0x20
  /\ sosi_si (Sample.config None 80) <> 0x20
  /\ Forall (fun b => int_of_byte b <> sosi_so (Sample.config None 80)
                      /\ int_of_byte b <> sosi_si (Sample.config None 80))
       (process_sosi_codes (Sample.config None 80) [xc1; x28; x29]).
Proof.
  split; [reflexivity|]. split; [discriminate|]. split; [discriminate|].
  apply (sosi_codes_neutralised (Sample.config None 80) [xc1; x28; x29]);
    [reflexivity | discriminate | discriminate].
Defined.

(** X2: the SOSI pass keeps the length of the data and doing it twice
    changes nothing more. *)
Theorem process_sosi_codes_idempotent (config : ConversionConfig)
    (data : list byte) :
  length (process_sosi_codes config data) = length data
  /\ process_sosi_codes config (process_sosi_codes config data)
     = process_sosi_codes config data.
Proof.
  split; [apply process_sosi_codes_length|].
  unfold process_sosi_codes.
  destruct (convert_sosi_to_space config); cbn [negb]; [|reflexivity].
  rewrite map_map. apply map_ext. intros b.
  destruct ((int_of_byte b =? sosi_so config)
            || (int_of_byte b =? sosi_si config)) eqn:Hb.
  - destruct ((int_of_byte x20 =? sosi_so config)
              || (int_of_byte x20 =? sosi_si config)); reflexivity.
  - now rewrite Hb.
Qed.

(** *** The translation table *)

(** X3: the table sends the EBCDIC digits and letters to the ASCII digits
    and letters of the same rank. *)
Theorem table_digits_and_letters (k : Z) :
  (0 <= k < 10 -> convert_ebcdic_byte (Ebcdic.digit k) = 0x30 + k)
  /\ (0 <= k < 26 ->
      convert_ebcdic_byte (Ebcdic.upper_letter k) = 0x41 + k
      /\ convert_ebcdic_byte (Ebcdic.lower_letter k) = 0x61 + k).
Proof.
  split; intros Hk; rewrite <- (Z2Nat.id k) by lia;
    [assert (Hn : (Z.to_nat k < 10)%nat) by lia
    |assert (Hn : (Z.to_nat k < 26)%nat) by lia];
    revert Hn; generalize (Z.to_nat k) as n; intros n Hn.
  - do 10 (destruct n as [|n]; [vm_compute; reflexivity|]). lia.
  - do 26 (destruct n as [|n]; [vm_compute; split; reflexivity|]). lia.
Qed.

Lemma table_digits_and_letters_witness :
  (0 <= 7 < 10 /\ convert_ebcdic_byte 0xF7 = 0x37)
  /\ (0 <= 19 < 26 /\ convert_ebcdic_byte 0xE3 = 0x54
      /\ convert_ebcdic_byte 0xA3 = 0x74).
Proof.
  split; (split; [lia|]).
  - exact (proj1 (table_digits_and_letters 7) ltac:(lia)).
  - exact (proj2 (table_digits_and_letters 19) ltac:(lia)).
Defined.

Lemma str_in_binary_types (t : string) :
  str_in t ["COMP"; "COMP-1"; "COMP-2"; "COMP-3"; "COMP-4"; "COMP-5"]
  = String.eqb t "COMP-3"
    || str_in t ["COMP"; "COMP-1"; "COMP-2"; "COMP-4"; "COMP-5"].
Proof.
  unfold str_in. cbn [existsb].
  destruct (String.eqb t "COMP"), (String.eqb t "COMP-1"),
    (String.eqb t "COMP-2"), (String.eqb t "COMP-3"),
    (String.eqb t "COMP-4"), (String.eqb t "COMP-5"); reflexivity.
Qed.

(** X4: converting a field never raises.  A COMP-3 field is decoded as
    packed decimal, a field of another COMP type comes back unchanged, and a
    field of any other type is translated byte by byte through the table
    and the SOSI pass, which keeps its length. *)
Theorem convert_field_data_never_raises (config : ConversionConfig)
    (field : LayoutField) (field_data : list byte) :
  convert_field_data config field field_data
  = Some (if String.eqb (fld_type field) "COMP-3"
          then (_convert_packed_decimal field_data, "PACKED")
          else if str_in (fld_type field)
                    ["COMP"; "COMP-1"; "COMP-2"; "COMP-4"; "COMP-5"]
               then (field_data, "BINARY")
               else (process_sosi_codes config
                       (map Spec.translate_byte field_data), "DISPLAY"))
  /\ length (process_sosi_codes config (map Spec.translate_byte field_data))
     = length field_data.
Proof.
  split.
  - unfold convert_field_data.
    rewrite str_in_binary_types, convert_bytes_total.
    destruct (String.eqb (fld_type field) "COMP-3");
      [|destruct (str_in (fld_type field) _)]; reflexivity.
  - now rewrite process_sosi_codes_length, length_map.
Qed.

(** *** Packed decimal *)

Lemma list_byte_of_string_app (s t : string) :
  list_byte_of_string (s ++ t)
  = (list_byte_of_string s ++ list_byte_of_string t)%list.
Proof.
  unfold list_byte_of_string.
  induction s as [|a s IH]; [reflexivity|].
  rewrite string_app_cons. cbn [list_ascii_of_string map app].
  now rewrite IH.
Qed.

Lemma nibble_digit_shape (n : Z) :
  0 <= n ->
  Forall Ebcdic.is_ascii_digit (list_byte_of_string (Spec.nibble_digit n))
  /\ (length (list_byte_of_string (Spec.nibble_digit n)) <= 1)%nat
  /\ (n <= 9 -> length (list_byte_of_string (Spec.nibble_digit n)) = 1%nat).
Proof.
  intros Hn. unfold Spec.nibble_digit.
  destruct (Z.leb_spec n 9) as [Hle|Hgt].
  - rewrite <- (Z2Nat.id n) by lia.
    assert (Hk : (Z.to_nat n <= 9)%nat) by lia.
    revert Hk. generalize (Z.to_nat n) as k. intros k Hk.
    do 10 (destruct k as [|k];
           [match goal with
            | |- context [list_byte_of_string ?s] =>
                let v := eval vm_compute in (list_byte_of_string s) in
                change (list_byte_of_string s) with v
            end;
            split;
            [constructor;
             [unfold Ebcdic.is_ascii_digit; cbn; lia | constructor]
            | split; [cbn; lia | reflexivity]]|]).
    lia.
  - split; [constructor|]. split; [cbn; lia | lia].
Qed.

Lemma packed_digits_shape (data : list byte) :
  Forall Ebcdic.is_ascii_digit (list_byte_of_string (Spec.packed_digits data))
  /\ (length (list_byte_of_string (Spec.packed_digits data))
      <= 2 * length data - 1)%nat
  /\ (data <> [] -> Shape.valid_packed data ->
      length (list_byte_of_string (Spec.packed_digits data))
      = (2 * length data - 1)%nat).
Proof.
  induction data as [|b data IH].
  - split; [constructor|]. split; [cbn; lia | intros H; contradiction].
  - destruct data as [|b' rest].
    + cbn [Spec.packed_digits Shape.valid_packed List.length].
      destruct (nibble_digit_shape (Spec.high_nibble b) (nibble_nonneg _))
        as (Hd & Hle & Heq).
      split; [exact Hd|]. split; [lia|]. intros _ Hv. rewrite (Heq Hv). lia.
    + change (Spec.packed_digits (b :: b' :: rest))
        with (Spec.nibble_digit (Spec.high_nibble b)
              ++ Spec.nibble_digit (Spec.low_nibble b)
              ++ Spec.packed_digits (b' :: rest))%string.
      change (Shape.valid_packed (b :: b' :: rest))
        with (Spec.high_nibble b <= 9 /\ Spec.low_nibble b <= 9
              /\ Shape.valid_packed (b' :: rest)).
      rewrite !list_byte_of_string_app, !length_app.
      destruct (nibble_digit_shape (Spec.high_nibble b) (nibble_nonneg _))
        as (Hd1 & Hle1 & Heq1).
      destruct (nibble_digit_shape (Spec.low_nibble b) (nibble_nonneg _))
        as (Hd2 & Hle2 & Heq2).
      destruct IH as (Hd & Hle & Heq).
      remember (b' :: rest) as tl eqn:Htl.
      assert (Hpos : (1 <= length tl)%nat) by (subst tl; cbn; lia).
      cbn [List.length].
      split; [repeat apply Forall_app_2; assumption|]. split; [lia|].
      intros _ (Hv1 & Hv2 & Hv).
      rewrite (Heq1 Hv1), (Heq2 Hv2), Heq; [lia | subst tl; discriminate | exact Hv].
Qed.


(** X6: when every digit nibble of a non-empty packed field is a decimal
    digit, the decoder returns exactly [2n - 1] digits for [n] bytes (after
    the sign, if any). *)
Theorem packed_decimal_full_width (data : list byte) :
  data <> [] ->
  Shape.valid_packed data ->
  Z.of_nat (length (_convert_packed_decimal data))
  = 2 * Z.of_nat (length data) - 1
    + (if String.eqb (Spec.packed_sign data) "-" then 1 else 0).
Proof.
  intros Hne Hvalid. unfold _convert_packed_decimal.
  rewrite (packed_loop data 0 (Z.of_nat (length data)) "" Hne) by lia.
  rewrite string_app_nil_l, list_byte_of_string_app, length_app.
  destruct (packed_digits_shape data) as (_ & _ & Heq).
  rewrite (Heq Hne Hvalid).
  assert (Hlen : (1 <= length data)%nat)
    by (destruct data; [contradiction | cbn; lia]).
  unfold Spec.packed_sign.
  destruct (last data) as [l|]; [|cbn; lia].
  destruct (Spec.low_nibble l =? 13); cbn; lia.
Qed.

Lemma packed_decimal_full_width_witness :
  [x12; x34; x5d] <> []
  /\ Shape.valid_packed [x12; x34; x5d]
  /\ Z.of_nat (length (_convert_packed_decimal [x12; x34; x5d])) = 6.
Proof.
  split; [discriminate|].
  assert (Hv : Shape.valid_packed [x12; x34; x5d])
    by (vm_compute; repeat split; discriminate).
  split; [exact Hv|].
  exact (packed_decimal_full_width [x12; x34; x5d] ltac:(discriminate) Hv).
Defined.

(** *** Field slices and record fitting *)



(** X8: a converted record is written padded with spaces and cut to the
    record length, so what is written always has [record_length] bytes. *)
Theorem fit_record_pad_and_cut (config : ConversionConfig)
    (converted : list byte) :
  0 <= record_length config ->
  fit_record config converted
  = take (Z.to_nat (record_length config))
      (converted ++ replicate (Z.to_nat (record_length config)) x20)
  /\ Z.of_nat (length (fit_record config converted)) = record_length config.
Proof.
  intros HL. split; [|now apply fit_record_length].
  unfold fit_record, Py.repeat_elem.
  destruct (Z.ltb_spec (Z.of_nat (length converted)) (record_length config))
    as [Hlt|Hge].
  - destruct (Z.gtb_spec
                (Z.of_nat (length (converted
                                   ++ replicate
                                        (Z.to_nat (record_length config
                                                   - Z.of_nat (length converted)))
                                        x20)))
                (record_length config)) as [Hgt|_].
    + rewrite length_app, length_replicate in Hgt. lia.
    + rewrite take_app_ge by lia. rewrite take_replicate.
      do 2 f_equal. lia.
  - destruct (Z.gtb_spec (Z.of_nat (length converted)) (record_length config))
      as [Hgt|Hle].
    + unfold Py.slice, Py.clamp_index. cbn [Z.ltb Z.compare].
      destruct (Z.ltb_spec (record_length config) 0); [lia|].
      rewrite Z.min_l, Z.min_l by lia. cbn [Z.to_nat drop].
      rewrite take_app_le by lia. f_equal. lia.
    + rewrite take_app_le by lia. rewrite take_ge by lia. reflexivity.
Qed.

Lemma fit_record_pad_and_cut_witness :
  0 <= record_length (Sample.config None 4)
  /\ fit_record (Sample.config None 4) [x41; x42] = [x41; x42; x20; x20]
  /\ fit_record (Sample.config None 4) [x41; x42; x43; x44; x45]
     = [x41; x42; x43; x44].
Proof.
  split; [cbn; lia|]. split.
  - exact (proj1 (fit_record_pad_and_cut (Sample.config None 4) [x41; x42]
                    ltac:(cbn; lia))).
  - exact (proj1 (fit_record_pad_and_cut (Sample.config None 4)
                    [x41; x42; x43; x44; x45] ltac:(cbn; lia))).
Defined.

(** ** Further properties of the record pipeline *)
















(** ** Further properties of the layout parser *)

Lemma laid_out_from_position (fields : list LayoutField) :
  forall (p : Z) (i : nat) (f : LayoutField),
    Spec.laid_out_from p fields ->
    fields !! i = Some f ->
    fld_position f = p + Shape.occupied (take i fields).
Proof.
  induction fields as [|h fields IH]; intros p i f Hlaid Hf; [discriminate|].
  destruct Hlaid as [Hh Hrest]. destruct i as [|i].
  - injection Hf as ->. cbn [take Shape.occupied]. lia.
  - cbn [take Shape.occupied]. rewrite (IH _ i f Hrest Hf).
    unfold Spec.next_offset. rewrite Hh.
    destruct (Py.truthy_opt (fld_redefines h)); cbn [negb]; lia.
Qed.

(** X13: in a parsed layout the position of a field is 1 plus the lengths
    of the fields before it that do not redefine another field; the first
    field is at position 1. *)
Theorem position_is_sum_of_lengths
    (d1 d2 d3 : list byte -> option string) (config : ConversionConfig)
    (fs : gmap string (list byte)) (fields : list LayoutField)
    (i : nat) (f : LayoutField) :
  parse_layout_file d1 d2 d3 config fs = Ok fields ->
  fields !! i = Some f ->
  fld_position f = 1 + Shape.occupied (take i fields).
Proof.
  intros Hparse Hf.
  exact (laid_out_from_position fields 1 i f
           (parse_layout_file_laid_out _ _ _ _ _ _ Hparse) Hf).
Qed.

Lemma position_is_sum_of_lengths_witness :
  parse_layout_file Sample.rejecting_codec Sample.rejecting_codec
    Sample.rejecting_codec (Sample.config (Some "/layout/OVERLAY.LAYOUT") 8)
    Sample.files
  = Ok Sample.overlay_fields
  /\ (exists f, Sample.overlay_fields !! 4%nat = Some f
                /\ fld_name f = "BALANCE"
                /\ fld_position f = 1 + (3 + (5 + (0 + (0 + 0))))).
Proof.
  assert (Hparse :
            parse_layout_file Sample.rejecting_codec Sample.rejecting_codec
              Sample.rejecting_codec
              (Sample.config (Some "/layout/OVERLAY.LAYOUT") 8) Sample.files
            = Ok Sample.overlay_fields) by (vm_compute; reflexivity).
  split; [exact Hparse|].
  eexists. split; [reflexivity|]. split; [reflexivity|].
  exact (position_is_sum_of_lengths _ _ _ _ _ _ 4%nat _ Hparse eq_refl).
Defined.

Lemma parse_line_ignored (st : pstate) (line : string) :
  Shape.ignored_line line = true -> parse_line st line = st.
Proof.
  unfold Shape.ignored_line, parse_line. intros ->. reflexivity.
Qed.

(** X14: blank lines and comment lines (starting with [*] or [#]) never
    yield a field and never move the running offset: parsing the lines of
    a layout gives the same result as parsing them with those lines taken
    out. *)
Theorem comment_lines_are_skipped (lines : list string) (st : pstate) :
  fold_left parse_line lines st
  = fold_left parse_line
      (List.filter (fun line => negb (Shape.ignored_line line)) lines) st.
Proof.
  revert st; induction lines as [|line lines IH]; intros st;
    cbn [fold_left List.filter]; [reflexivity|].
  destruct (Shape.ignored_line line) eqn:Hline; cbn [negb fold_left].
  - rewrite parse_line_ignored by exact Hline. apply IH.
  - apply IH.
Qed.

Lemma parse_line_emitted (st : pstate) (line : string) :
  Forall Shape.emitted (fst st) ->
  Forall Shape.emitted (fst (parse_line st line)).
Proof.
  intros Hst. unfold parse_line.
  destruct (_ || _); [exact Hst|].
  destruct (Re.re_match field_re (Py.rstrip line)) as [m|] eqn:Hm;
    [|exact Hst].
  destruct (field_of_match m (snd st)) as [f|] eqn:Hf; [|exact Hst].
  cbn [fst]. apply Forall_app_2; [exact Hst|].
  constructor; [|constructor]. now exists (Py.rstrip line), m, (snd st).
Qed.

Lemma parse_layout_file_emitted
    (d1 d2 d3 : list byte -> option string) (config : ConversionConfig)
    (fs : gmap string (list byte)) (fields : list LayoutField) :
  parse_layout_file d1 d2 d3 config fs = Ok fields ->
  Forall Shape.emitted fields.
Proof.
  unfold parse_layout_file.
  destruct (layout_file config) as [path|]; [|intros [= <-]; constructor].
  destruct (negb (Py.truthy path)); [intros [= <-]; constructor|].
  destruct (fs !! path) as [raw|]; [|discriminate].
  destruct (read_with _ raw) as [content|]; [|discriminate].
  assert (Hall : Forall Shape.emitted (fst (parse_lines content))).
  { unfold parse_lines.
    assert (Hgen : forall lines st,
               Forall Shape.emitted (fst st) ->
               Forall Shape.emitted (fst (fold_left parse_line lines st))).
    { induction lines as [|l lines IH]; intros st Hst; cbn [fold_left];
        [exact Hst|].
      apply IH, parse_line_emitted, Hst. }
    apply Hgen. constructor. }
  destruct (fst (parse_lines content)) as [|f l]; [discriminate|].
  now intros [= <-].
Qed.

Lemma calculate_field_length_set_length (f : LayoutField) (n : Z) :
  calculate_field_length (set_length f n) = calculate_field_length f.
Proof. reflexivity. Qed.

(** What [field_of_match] puts into the field it builds. *)
Lemma emitted_facts (f : LayoutField) :
  Shape.emitted f ->
  fld_length f = calculate_field_length f
  /\ Py.truthy (fld_picture f) = true
  /\ fld_type f
     = match fld_usage f with
       | Some u =>
           if Py.truthy u then default "PIC" (USAGE_TYPES !! Py.upper u)
           else "PIC"
       | None => "PIC"
       end.
Proof.
  intros (line & m & p & _ & Hf). unfold field_of_match in Hf.
  destruct (_ && _); [discriminate|].
  injection Hf as <-. rewrite calculate_field_length_set_length.
  cbn [set_length fld_length fld_picture fld_type fld_usage].
  split; [reflexivity|]. split; [|reflexivity].
  destruct (Re.group m 3) as [[|c pic]|]; reflexivity.
Qed.

(** X15: in a parsed layout, a field whose usage is spelled COMP or COMP-1
    to COMP-5 gets the type PIC: it is measured and later converted as
    display text.  In particular a COMP-3 field is not handled as packed
    decimal (only PACKED-DECIMAL is). *)
Theorem comp_usage_is_display
    (d1 d2 d3 : list byte -> option string) (config : ConversionConfig)
    (fs : gmap string (list byte)) (fields : list LayoutField)
    (f : LayoutField) (u : string) :
  parse_layout_file d1 d2 d3 config fs = Ok fields ->
  In f fields ->
  fld_usage f = Some u ->
  In (Py.upper u) ["COMP"; "COMP-1"; "COMP-2"; "COMP-3"; "COMP-4"; "COMP-5"] ->
  fld_type f = "PIC"
  /\ fld_length f = fst (parse_picture_clause (fld_picture f)) * fld_occurs f.
Proof.
  intros Hparse Hin Hu Hcomp.
  pose proof (parse_layout_file_emitted _ _ _ _ _ _ Hparse) as Hall.
  rewrite List.Forall_forall in Hall.
  destruct (emitted_facts f (Hall f Hin)) as (Hlen & _ & Htype).
  rewrite Hu in Htype.
  assert (Hpic : fld_type f = "PIC").
  { rewrite Htype. destruct (Py.truthy u); [|reflexivity].
    cbn [In] in Hcomp.
    repeat (destruct Hcomp as [<- | Hcomp]; [vm_compute; reflexivity|]).
    contradiction. }
  split; [exact Hpic|].
  rewrite Hlen. unfold calculate_field_length. rewrite Hpic. reflexivity.
Qed.

Lemma comp_usage_is_display_witness :
  parse_layout_file Sample.rejecting_codec Sample.rejecting_codec
    Sample.rejecting_codec (Sample.config (Some "/layout/USAGE.LAYOUT") 8)
    Cases.files
  = Ok Cases.usage_fields
  /\ (exists f,
         In f Cases.usage_fields
         /\ fld_name f = "SALARY"
         /\ fld_usage f = Some "COMP-3"
         /\ fld_picture f = "9(7)V99"
         /\ fld_type f = "PIC"
         /\ fld_length f = 7).
Proof.
  assert (Hparse :
            parse_layout_file Sample.rejecting_codec Sample.rejecting_codec
              Sample.rejecting_codec
              (Sample.config (Some "/layout/USAGE.LAYOUT") 8) Cases.files
            = Ok Cases.usage_fields) by (vm_compute; reflexivity).
  split; [exact Hparse|].
  eexists. split; [right; left; reflexivity|].
  split; [reflexivity|]. split; [reflexivity|]. split; [reflexivity|].
  exact (comp_usage_is_display _ _ _ _ _ _ _ "COMP-3" Hparse
           (or_intror (or_introl eq_refl)) eq_refl
           (or_intror (or_intror (or_intror (or_introl eq_refl))))).
Defined.

(** X16: every field of a parsed layout has a non-empty picture ([X(1)]
    when its line has none) and carries the length that the calculator
    gives for its own picture, type and repetition count. *)
Theorem parsed_length_is_calculated
    (d1 d2 d3 : list byte -> option string) (config : ConversionConfig)
    (fs : gmap string (list byte)) (fields : list LayoutField)
    (f : LayoutField) :
  parse_layout_file d1 d2 d3 config fs = Ok fields ->
  In f fields ->
  fld_picture f <> EmptyString
  /\ fld_length f = calculate_field_length f.
Proof.
  intros Hparse Hin.
  pose proof (parse_layout_file_emitted _ _ _ _ _ _ Hparse) as Hall.
  rewrite List.Forall_forall in Hall.
  destruct (emitted_facts f (Hall f Hin)) as (Hlen & Hpic & _).
  split; [|exact Hlen]. intros Hempty. now rewrite Hempty in Hpic.
Qed.

Lemma parsed_length_is_calculated_witness :
  parse_layout_file Sample.rejecting_codec Sample.rejecting_codec
    Sample.rejecting_codec (Sample.config (Some "/layout/USAGE.LAYOUT") 8)
    Cases.files
  = Ok Cases.usage_fields
  /\ (exists f,
         In f Cases.usage_fields
         /\ fld_name f = "BONUS"
         /\ fld_picture f <> EmptyString
         /\ fld_length f = calculate_field_length f).
Proof.
  assert (Hparse :
            parse_layout_file Sample.rejecting_codec Sample.rejecting_codec
              Sample.rejecting_codec
              (Sample.config (Some "/layout/USAGE.LAYOUT") 8) Cases.files
            = Ok Cases.usage_fields) by (vm_compute; reflexivity).
  split; [exact Hparse|].
  eexists. split; [do 3 right; left; reflexivity|].
  split; [reflexivity|].
  exact (parsed_length_is_calculated _ _ _ _ _ _ _ Hparse
           (or_intror (or_intror (or_intror (or_introl eq_refl))))).
Defined.

Lemma universal_newlines_no_cr (s : string) :
  Shape.no_cr (universal_newlines s).
Proof.
  induction s as [|c s IH]; cbn [universal_newlines]; [exact I|].
  destruct (Ascii.eqb_spec c "013") as [->|Hc].
  - destruct s as [|d s]; [now split|].
    cbn [universal_newlines] in IH.
    destruct (Ascii.eqb_spec d "010") as [->|Hd].
    + cbn in IH. split; [discriminate | exact (proj2 IH)].
    + split; [discriminate | exact IH].
  - split; [exact Hc | exact IH].
Qed.

(** X17: the text of a layout file is read with every line end turned
    into a line feed: whatever codec decodes the file, the content that is
    split into lines holds no carriage return. *)
Theorem layout_text_has_no_cr
    (d1 d2 d3 : list byte -> option string) (raw : list byte) :
  exists content,
    read_with (encodings d1 d2 d3) raw = Some content
    /\ Shape.no_cr content.
Proof.
  unfold encodings. cbn [read_with].
  destruct (d1 raw); [eauto using universal_newlines_no_cr|].
  destruct (d2 raw); [eauto using universal_newlines_no_cr|].
  destruct (d3 raw); [eauto using universal_newlines_no_cr|].
  unfold decode_latin1. eauto using universal_newlines_no_cr.
Qed.

(** ** What the matcher captures *)

Lemma consumed_app (w s : string) : Re.consumed (w ++ s) s = w.
Proof.
  unfold Re.consumed. rewrite string_length_app.
  replace (String.length w + String.length s - String.length s)%nat
    with (String.length w) by lia.
  induction w as [|a w IH]; [now destruct s|].
  rewrite string_app_cons. cbn [String.length substring]. now rewrite IH.
Qed.

Lemma group_is_Some_cons (n m : nat) (w : string) (c : Re.caps) :
  is_Some (Re.group c n) -> is_Some (Re.group ((m, w) :: c) n).
Proof.
  intros H. cbn [Re.group]. destruct (Nat.eqb m n); [eauto | exact H].
Qed.

Lemma extends_refl (G : nat -> string -> Prop) (r : Re.regex) (c : Re.caps) :
  ReSem.mandatory r = [] -> ReSem.extends G r c c.
Proof.
  intros Hm. split; [tauto|]. rewrite Hm. intros n [H|[]]. exact H.
Qed.

(** The greedy loop is sound when one round is. *)
Lemma star_loop_sound (G : nat -> string -> Prop) (r1 : Re.regex)
    (k : Re.cont) (x : string * Re.caps) :
  (forall s c k',
      Re.run r1 s c k' = Some x ->
      exists w s' c',
        s = (w ++ s')%string /\ ReSem.matches r1 w
        /\ ReSem.extends G r1 c c' /\ k' s' c' = Some x) ->
  forall (fuel : nat) (s : string) (c : Re.caps),
    Re.star_loop (Re.run r1) k fuel s c = Some x ->
    exists w s' c',
      s = (w ++ s')%string /\ ReSem.matches (Re.Star r1) w
      /\ ReSem.extends G (Re.Star r1) c c' /\ k s' c' = Some x.
Proof.
  intros Hone. induction fuel as [|fuel IH]; intros s c Hrun;
    cbn [Re.star_loop] in Hrun.
  - exists EmptyString, s, c. repeat split; try tauto; try constructor.
    intros n [H|[]]. exact H.
  - destruct (Re.run r1 s c _) as [y|] eqn:Hround.
    + injection Hrun as ->.
      apply Hone in Hround as (w1 & s1 & c1 & -> & Hw1 & [Hc1 Hd1] & Hk).
      destruct (_ <? _)%nat; [|discriminate].
      apply IH in Hk as (w2 & s2 & c2 & -> & Hw2 & [Hc2 Hd2] & Hk).
      exists (w1 ++ w2)%string, s2, c2.
      split; [now rewrite string_app_assoc|].
      split; [now constructor|]. split; [|exact Hk].
      split; [tauto|]. intros n [H|[]]. apply Hd2. left. apply Hd1. now left.
    + exists EmptyString, s, c. repeat split; try tauto; try constructor.
      intros n [H|[]]. exact H.
Qed.

(** Soundness of the matcher: a successful run of [r] has consumed a text
    that [r] matches, has kept the captures within what the groups allow,
    and has set every mandatory group, before it handed over to the
    continuation. *)
Lemma run_sound (G : nat -> string -> Prop) (r : Re.regex) :
  ReSem.groups_ok G r ->
  forall (s : string) (c : Re.caps) (k : Re.cont) (x : string * Re.caps),
    Re.run r s c k = Some x ->
    exists w s' c',
      s = (w ++ s')%string /\ ReSem.matches r w
      /\ ReSem.extends G r c c' /\ k s' c' = Some x.
Proof.
  induction r as [|p|r1 IH1 r2 IH2|r1 IH1 r2 IH2|r1 IH1|r1 IH1|n r1 IH1|];
    intros Hok s c k x Hrun; cbn [Re.run] in Hrun.
  - exists EmptyString, s, c. split; [reflexivity|]. split; [constructor|].
    split; [now apply extends_refl | exact Hrun].
  - destruct s as [|a s]; [discriminate|].
    destruct (p a) eqn:Hp; [|discriminate].
    exists (String a EmptyString), s, c. split; [reflexivity|].
    split; [now constructor|]. split; [now apply extends_refl | exact Hrun].
  - destruct Hok as [Hok1 Hok2].
    apply (IH1 Hok1) in Hrun as (w1 & s1 & c1 & -> & Hw1 & [Hc1 Hd1] & Hrun).
    apply (IH2 Hok2) in Hrun as (w2 & s2 & c2 & -> & Hw2 & [Hc2 Hd2] & Hrun).
    exists (w1 ++ w2)%string, s2, c2.
    split; [now rewrite string_app_assoc|]. split; [now constructor|].
    split; [|exact Hrun]. split; [tauto|].
    intros n [H|H]; [apply Hd2; left; apply Hd1; now left|].
    cbn [ReSem.mandatory] in H. apply in_app_or in H as [H|H].
    + apply Hd2. left. apply Hd1. now right.
    + apply Hd2. now right.
  - destruct Hok as [Hok1 Hok2].
    destruct (Re.run r1 s c k) as [y|] eqn:Hleft.
    + injection Hrun as ->.
      apply (IH1 Hok1) in Hleft as (w & s' & c' & -> & Hw & [Hc Hd] & Hk).
      exists w, s', c'. split; [reflexivity|].
      split; [now apply ReSem.m_alt_l|]. split; [|exact Hk].
      split; [exact Hc|]. intros n [H|[]]. apply Hd. now left.
    + apply (IH2 Hok2) in Hrun as (w & s' & c' & -> & Hw & [Hc Hd] & Hk).
      exists w, s', c'. split; [reflexivity|].
      split; [now apply ReSem.m_alt_r|]. split; [|exact Hk].
      split; [exact Hc|]. intros n [H|[]]. apply Hd. now left.
  - destruct (Re.run r1 s c k) as [y|] eqn:Hsome.
    + injection Hrun as ->.
      apply (IH1 Hok) in Hsome as (w & s' & c' & -> & Hw & [Hc Hd] & Hk).
      exists w, s', c'. split; [reflexivity|].
      split; [now apply ReSem.m_opt_some|]. split; [|exact Hk].
      split; [exact Hc|]. intros n [H|[]]. apply Hd. now left.
    + exists EmptyString, s, c. split; [reflexivity|].
      split; [constructor|]. split; [now apply extends_refl | exact Hrun].
  - apply (star_loop_sound G r1 k x) in Hrun; [exact Hrun|].
    intros s0 c0 k'. apply (IH1 Hok).
  - destruct Hok as [HG Hok].
    apply (IH1 Hok) in Hrun as (w & s' & c' & -> & Hw & [Hc Hd] & Hk).
    rewrite consumed_app in Hk.
    exists w, s', ((n, w) :: c'). split; [reflexivity|].
    split; [now constructor|]. split; [|exact Hk]. split.
    + intros Hcap. constructor; [cbn [fst snd]; now apply HG | now apply Hc].
    + intros m [H|H].
      * apply group_is_Some_cons, Hd. now left.
      * cbn [ReSem.mandatory In] in H. destruct H as [<-|H].
        -- cbn [Re.group]. rewrite Nat.eqb_refl. eauto.
        -- apply group_is_Some_cons, Hd. now right.
  - exists EmptyString, s, c. split; [reflexivity|]. split; [constructor|].
    split; [now apply extends_refl|].
    destruct s as [|a [|b s]]; [exact Hrun | | discriminate].
    destruct (Ascii.eqb a "010"); [exact Hrun | discriminate].
Qed.

Lemma captured_group (G : nat -> string -> Prop) (c : Re.caps) (n : nat)
    (w : string) :
  ReSem.captured G c -> Re.group c n = Some w -> G n w.
Proof.
  unfold ReSem.captured. induction 1 as [|[m v] c Hmv Hc IH];
    cbn [Re.group]; [discriminate|].
  destruct (Nat.eqb_spec m n) as [->|_]; [|exact IH].
  now intros [= <-].
Qed.

(** What [re.match] returns: captures within what the groups allow, with
    every mandatory group set. *)
Lemma re_match_sound (G : nat -> string -> Prop) (r : Re.regex)
    (s : string) (m : Re.caps) :
  ReSem.groups_ok G r ->
  G 0%nat = (fun _ => True) ->
  Re.re_match r s = Some m ->
  ReSem.captured G m
  /\ (forall n, In n (ReSem.mandatory r) -> is_Some (Re.group m n)).
Proof.
  intros Hok HG0. unfold Re.re_match.
  destruct (Re.run (Re.Grp 0 r) s [] Re.accept) as [[s' c]|] eqn:Hrun;
    [|discriminate].
  intros [= <-].
  apply (run_sound G) in Hrun as (w & s1 & c1 & _ & _ & [Hc Hd] & Hacc).
  - injection Hacc as _ <-. split; [apply Hc; constructor|].
    intros n Hn. apply Hd. right. cbn [ReSem.mandatory]. now right.
  - split; [|exact Hok]. intros w _. now rewrite HG0.
Qed.

(** *** The texts of the groups *)


Lemma matches_cls (p : ascii -> bool) (w : string) :
  ReSem.matches (Re.Cls p) w ->
  exists a, w = String a EmptyString /\ p a = true.
Proof. inversion 1; subst. eauto. Qed.

Lemma matches_seq (r1 r2 : Re.regex) (w : string) :
  ReSem.matches (Re.Seq r1 r2) w ->
  exists w1 w2,
    w = (w1 ++ w2)%string /\ ReSem.matches r1 w1 /\ ReSem.matches r2 w2.
Proof. inversion 1; subst. eauto. Qed.

Lemma matches_alt (r1 r2 : Re.regex) (w : string) :
  ReSem.matches (Re.Alt r1 r2) w ->
  ReSem.matches r1 w \/ ReSem.matches r2 w.
Proof. inversion 1; subst; tauto. Qed.

Lemma matches_opt (r : Re.regex) (w : string) :
  ReSem.matches (Re.Opt r) w -> w = EmptyString \/ ReSem.matches r w.
Proof. inversion 1; subst; tauto. Qed.

Lemma matches_star_cls (p : ascii -> bool) (w : string) :
  ReSem.matches (Re.Star (Re.Cls p)) w -> Shape.all_chars p w.
Proof.
  intros H. remember (Re.Star (Re.Cls p)) as r eqn:Hr.
  induction H as [| | | | | | |r0|r0 w1 w2 H1 _ H2 IH2| |]; try discriminate.
  - exact I.
  - injection Hr as ->. apply matches_cls in H1 as (a & -> & Ha).
    rewrite string_app_cons. split; [exact Ha | now apply IH2].
Qed.

Lemma matches_plus_cls (p : ascii -> bool) (w : string) :
  ReSem.matches (Re.Plus (Re.Cls p)) w ->
  Shape.all_chars p w /\ w <> EmptyString.
Proof.
  intros H. apply matches_seq in H as (w1 & w2 & -> & H1 & H2).
  apply matches_cls in H1 as (a & -> & Ha).
  apply matches_star_cls in H2. rewrite string_app_cons.
  split; [now split | discriminate].
Qed.

Lemma upper_app (s t : string) :
  Py.upper (s ++ t) = (Py.upper s ++ Py.upper t)%string.
Proof.
  induction s as [|a s IH]; [reflexivity|].
  rewrite string_app_cons. cbn [Py.upper]. now rewrite string_app_cons, IH.
Qed.

(** A keyword matched without regard to case is the keyword, once both are
    put in upper case. *)
Lemma matches_LitI (lit w : string) :
  ReSem.matches (Re.LitI lit) w -> Py.upper w = Py.upper lit.
Proof.
  revert w; induction lit as [|a lit IH]; intros w H; cbn [Re.LitI] in H.
  - now inversion H.
  - apply matches_seq in H as (w1 & w2 & -> & H1 & H2).
    apply matches_cls in H1 as (b & -> & Hb).
    apply Ascii.eqb_eq in Hb. rewrite string_app_cons.
    cbn [Py.upper]. now rewrite string_app_nil_l, (IH w2 H2), Hb.
Qed.

Lemma matches_usage (w : string) :
  ReSem.matches usage_re w -> ReSem.field_group 4 w.
Proof.
  unfold usage_re, ReSem.field_group. intros H.
  apply matches_alt in H as [H|H].
  { apply matches_seq in H as (w1 & w2 & -> & H1 & H2).
    apply matches_LitI in H1. rewrite upper_app, H1.
    apply matches_opt in H2 as [->|H2]; [cbn; tauto|].
    apply matches_seq in H2 as (m & d & -> & Hm & Hd).
    apply matches_cls in Hm as (a & -> & Ha).
    apply matches_cls in Hd as (b & -> & Hb).
    apply Ascii.eqb_eq in Ha. subst a.
    unfold is_1_to_5 in Hb. apply andb_prop in Hb as [Hb1 Hb2].
    apply N.leb_le in Hb1, Hb2.
    rewrite <- (ascii_N_embedding b).
    assert (Hcases : exists k, (k < 5)%nat
                               /\ N_of_ascii b = (49 + N.of_nat k)%N).
    { exists (N.to_nat (N_of_ascii b - 49)). split; lia. }
    destruct Hcases as (k & Hk & ->).
    do 5 (destruct k as [|k]; [cbn; tauto|]). lia. }
  repeat (apply matches_alt in H as [H|H];
          [apply matches_LitI in H; rewrite H; cbn; tauto|]).
  apply matches_LitI in H. rewrite H. cbn. tauto.
Qed.

Ltac groups_ok_tac :=
  repeat match goal with
    | |- _ /\ _ => split
    | |- True => exact I
    | |- forall w, ReSem.matches usage_re w -> _ => exact matches_usage
    | |- forall w, ReSem.matches (Re.Seq (Re.Cls ?p) (Re.Star (Re.Cls ?p))) w
                   -> _ => exact (matches_plus_cls p)
    | |- forall w, ReSem.matches (Re.Star (Re.Cls ?p)) w -> _ =>
        exact (matches_star_cls p)
    | |- forall w, ReSem.matches (Re.Plus (Re.Cls ?p)) w -> _ =>
        exact (matches_plus_cls p)
    | |- forall w, ReSem.matches (Re.Cls ?p) w -> _ => exact (matches_cls p)
    | |- ReSem.groups_ok _ _ =>
        first [ exact I
              | progress (unfold ws, usage_re, Re.ChrI, Re.Chr, Re.Plus;
                          cbn [ReSem.groups_ok Re.LitI]) ]
    end.

Lemma field_re_groups_ok : ReSem.groups_ok ReSem.field_group field_re.
Proof.
  unfold field_re, pic_part, occurs_part, redefines_part, value_part, digits.
  cbn [foldr ReSem.groups_ok Re.Plus Re.LitI]. groups_ok_tac.
Qed.

Lemma paren_re_groups_ok : ReSem.groups_ok ReSem.paren_group paren_re.
Proof.
  unfold paren_re. cbn [ReSem.groups_ok Re.Plus Re.Chr]. groups_ok_tac.
Qed.

(** ** Parsed layouts are well formed *)

Lemma int_of_digits_nonneg (s : string) :
  Shape.all_chars Py.is_digit s -> 0 <= Py.int_of_digits s.
Proof.
  unfold Py.int_of_digits.
  assert (Hgen : forall acc, 0 <= acc -> Shape.all_chars Py.is_digit s ->
                   0 <= fold_left
                          (fun acc c => 10 * acc + (Z.of_N (N_of_ascii c) - 48))
                          (list_ascii_of_string s) acc).
  { induction s as [|a s IH]; intros acc Hacc Hs;
      cbn [list_ascii_of_string fold_left]; [exact Hacc|].
    destruct Hs as [Ha Hs]. apply IH; [|exact Hs].
    unfold Py.is_digit in Ha. apply andb_prop in Ha as [H1 _].
    apply N.leb_le in H1. lia. }
  apply Hgen. lia.
Qed.

Lemma search_sound (r : Re.regex) (s : string) (m : Re.caps) :
  Re.search r s = Some m -> exists t, Re.re_match r t = Some m.
Proof.
  induction s as [|a s IH]; cbn [Re.search].
  - destruct (Re.re_match r "") as [c|] eqn:H; [|discriminate].
    intros [= <-]. eauto.
  - destruct (Re.re_match r (String a s)) as [c|] eqn:H; [|exact IH].
    intros [= <-]. eauto.
Qed.

Lemma parse_picture_clause_nonneg (picture : string) :
  0 <= fst (parse_picture_clause picture).
Proof.
  unfold parse_picture_clause.
  destruct (Re.search paren_re (working_picture picture)) as [m|] eqn:Hs;
    cbn [fst]; [|lia].
  apply search_sound in Hs as [t Ht].
  destruct (re_match_sound ReSem.paren_group paren_re t m
              paren_re_groups_ok eq_refl Ht) as [Hcap _].
  destruct (Re.group m 2) as [ds|] eqn:Hds; cbn [default from_option];
    unfold id.
  - apply int_of_digits_nonneg.
    exact (proj1 (captured_group _ _ _ _ Hcap Hds)).
  - cbn. lia.
Qed.

Lemma calculate_field_length_nonneg (field : LayoutField) :
  0 <= fld_occurs field -> 0 <= calculate_field_length field.
Proof.
  intros Hocc. pose proof (parse_picture_clause_nonneg (fld_picture field)).
  unfold calculate_field_length.
  destruct (str_in _ _).
  - destruct (_ <=? 4); [lia|]. destruct (_ <=? 9); lia.
  - destruct (String.eqb _ "COMP-1"); [lia|].
    destruct (String.eqb _ "COMP-2"); [lia|].
    destruct (String.eqb _ "COMP-3"); [|nia].
    apply Z.div_pos; lia.
Qed.

(** X18: whatever the picture, its digit count is not negative, and the
    byte length of a field with a non-negative repetition count is not
    negative either. *)
Theorem field_length_never_negative (field : LayoutField) :
  0 <= fld_occurs field ->
  0 <= fst (parse_picture_clause (fld_picture field))
  /\ 0 <= calculate_field_length field.
Proof.
  intros Hocc. split;
    [apply parse_picture_clause_nonneg
    | now apply calculate_field_length_nonneg].
Qed.

Lemma field_length_never_negative_witness :
  0 <= fld_occurs (Sample.field "FILLER" "PIC" "X(0)" 0 1)
  /\ 0 <= fst (parse_picture_clause "X(0)")
  /\ calculate_field_length (Sample.field "FILLER" "PIC" "X(0)" 0 1) = 0.
Proof.
  split; [cbn; lia|].
  split;
    [exact (proj1 (field_length_never_negative
                     (Sample.field "FILLER" "PIC" "X(0)" 0 1)
                     ltac:(cbn; lia)))
    | reflexivity].
Defined.

(** What the groups of a matching line give the field built from it. *)
Lemma emitted_shape (f : LayoutField) :
  Shape.emitted f ->
  (Shape.all_chars is_name_char (fld_name f) /\ fld_name f <> EmptyString)
  /\ (Shape.all_chars Py.is_digit (fld_level f)
      /\ fld_level f <> EmptyString)
  /\ Shape.all_chars is_pic_char (fld_picture f)
  /\ (forall r, fld_redefines f = Some r ->
                Shape.all_chars is_name_char r /\ r <> EmptyString)
  /\ 0 <= fld_occurs f
  /\ In (fld_type f) ["PIC"; "COMP"; "COMP-3"; "INDEX"; "POINTER"].
Proof.
  intros (line & m & p & Hm & Hf).
  destruct (re_match_sound ReSem.field_group field_re line m
              field_re_groups_ok eq_refl Hm) as [Hcap Hset].
  assert (Hgrp : forall n w, Re.group m n = Some w -> ReSem.field_group n w)
    by (intros n w; apply captured_group, Hcap).
  unfold field_of_match in Hf. destruct (_ && _); [discriminate|].
  injection Hf as <-.
  cbn [set_length fld_name fld_level fld_picture fld_redefines fld_occurs
       fld_type].
  split; [|split; [|split; [|split; [|split]]]].
  - destruct (Hset 2%nat) as [w Hw]; [cbn; tauto|].
    rewrite Hw. exact (Hgrp _ _ Hw).
  - destruct (Hset 1%nat) as [w Hw]; [cbn; tauto|].
    rewrite Hw. exact (Hgrp _ _ Hw).
  - destruct (Re.group m 3) as [pic|] eqn:Hpic; cbn [Py.truthy_opt].
    + destruct (Hgrp _ _ Hpic) as [Hchars Hne].
      destruct pic as [|c pic]; [contradiction | exact Hchars].
    + cbn. tauto.
  - intros r Hr. exact (Hgrp _ _ Hr).
  - destruct (Re.group m 5) as [o|] eqn:Ho; [|lia].
    destruct (Py.truthy o); [|lia].
    apply int_of_digits_nonneg. exact (proj1 (Hgrp _ _ Ho)).
  - destruct (Re.group m 4) as [u|] eqn:Hu; [|cbn; tauto].
    destruct (Py.truthy u); [|cbn; tauto].
    pose proof (Hgrp _ _ Hu) as Hin. cbn [ReSem.field_group In] in Hin.
    repeat (destruct Hin as [<- | Hin]; [vm_compute; tauto|]).
    contradiction.
Qed.

Lemma parsed_field_shape
    (d1 d2 d3 : list byte -> option string) (config : ConversionConfig)
    (fs : gmap string (list byte)) (fields : list LayoutField)
    (f : LayoutField) :
  parse_layout_file d1 d2 d3 config fs = Ok fields ->
  In f fields ->
  Shape.emitted f.
Proof.
  intros Hparse Hin.
  pose proof (parse_layout_file_emitted _ _ _ _ _ _ Hparse) as Hall.
  rewrite List.Forall_forall in Hall. now apply Hall.
Qed.



(** X20: the type of a field of a parsed layout is PIC, COMP, COMP-3,
    INDEX or POINTER, whatever the usage says: the parser never produces
    the types COMP-1, COMP-2, COMP-4 and COMP-5 that the calculator and the
    transcoder provide for. *)
Theorem parsed_types
    (d1 d2 d3 : list byte -> option string) (config : ConversionConfig)
    (fs : gmap string (list byte)) (fields : list LayoutField)
    (f : LayoutField) :
  parse_layout_file d1 d2 d3 config fs = Ok fields ->
  In f fields ->
  In (fld_type f) ["PIC"; "COMP"; "COMP-3"; "INDEX"; "POINTER"].
Proof.
  intros Hparse Hin.
  exact (proj2 (proj2 (proj2 (proj2 (proj2
           (emitted_shape f (parsed_field_shape _ _ _ _ _ _ _ Hparse Hin))))))).
Qed.

Lemma parsed_types_witness :
  exists f,
    In f Sample.overlay_fields
    /\ fld_name f = "BALANCE"
    /\ fld_usage f = Some "PACKED-DECIMAL"
    /\ In (fld_type f) ["PIC"; "COMP"; "COMP-3"; "INDEX"; "POINTER"].
Proof.
  assert (Hparse :
            parse_layout_file Sample.rejecting_codec Sample.rejecting_codec
              Sample.rejecting_codec
              (Sample.config (Some "/layout/OVERLAY.LAYOUT") 8) Sample.files
            = Ok Sample.overlay_fields) by (vm_compute; reflexivity).
  eexists. split; [do 4 right; left; reflexivity|].
  split; [reflexivity|]. split; [reflexivity|].
  exact (parsed_types _ _ _ _ _ _ _ Hparse
           (or_intror (or_intror (or_intror (or_intror (or_introl eq_refl)))))).
Defined.

Lemma occupied_nonneg (fields : list LayoutField) :
  Forall (fun f => 0 <= fld_length f) fields -> 0 <= Shape.occupied fields.
Proof.
  induction 1 as [|f fields Hf _ IH]; cbn [Shape.occupied]; [lia|].
  destruct (Py.truthy_opt (fld_redefines f)); lia.
Qed.

Lemma occupied_take_mono (fields : list LayoutField) (i j : nat) :
  Forall (fun f => 0 <= fld_length f) fields ->
  (i <= j)%nat ->
  Shape.occupied (take i fields) <= Shape.occupied (take j fields).
Proof.
  intros Hall. revert i j.
  induction Hall as [|f fields Hf Hall IH]; intros i j Hij.
  - rewrite !take_nil. lia.
  - destruct i as [|i]; destruct j as [|j]; try lia; cbn [take Shape.occupied].
    + pose proof (occupied_nonneg (take j fields)
                    (Forall_take _ _ _ Hall)).
      destruct (Py.truthy_opt (fld_redefines f)); lia.
    + specialize (IH i j ltac:(lia)). lia.
Qed.

Lemma parsed_lengths_nonneg
    (d1 d2 d3 : list byte -> option string) (config : ConversionConfig)
    (fs : gmap string (list byte)) (fields : list LayoutField) :
  parse_layout_file d1 d2 d3 config fs = Ok fields ->
  Forall (fun f => 0 <= fld_length f) fields.
Proof.
  intros Hparse. apply List.Forall_forall. intros f Hin.
  pose proof (parsed_field_shape _ _ _ _ _ _ _ Hparse Hin) as Hem.
  destruct (emitted_shape f Hem) as (_ & _ & _ & _ & Hocc & _).
  destruct Hem as (line & m & p & _ & Hf).
  unfold field_of_match in Hf. destruct (_ && _); [discriminate|].
  injection Hf as <-. cbn [set_length fld_length].
  apply calculate_field_length_nonneg. exact Hocc.
Qed.

(** X21: in a parsed layout no length is negative, every position is at
    least 1, and the positions never go down from one field to a later
    one. *)
Theorem positions_never_decrease
    (d1 d2 d3 : list byte -> option string) (config : ConversionConfig)
    (fs : gmap string (list byte)) (fields : list LayoutField)
    (i j : nat) (f g : LayoutField) :
  parse_layout_file d1 d2 d3 config fs = Ok fields ->
  fields !! i = Some f ->
  fields !! j = Some g ->
  (i <= j)%nat ->
  0 <= fld_length f /\ 1 <= fld_position f
  /\ fld_position f <= fld_position g.
Proof.
  intros Hparse Hf Hg Hij.
  pose proof (parsed_lengths_nonneg _ _ _ _ _ _ Hparse) as Hall.
  pose proof (parse_layout_file_laid_out _ _ _ _ _ _ Hparse) as Hlaid.
  rewrite (laid_out_from_position fields 1 i f Hlaid Hf),
    (laid_out_from_position fields 1 j g Hlaid Hg).
  pose proof (occupied_nonneg (take i fields) (Forall_take _ _ _ Hall)).
  pose proof (occupied_take_mono fields i j Hall Hij).
  split; [|lia].
  rewrite List.Forall_forall in Hall. apply Hall.
  apply list_elem_of_In. now apply list_elem_of_lookup_2 in Hf.
Qed.

Lemma positions_never_decrease_witness :
  exists f g,
    Sample.overlay_fields !! 1%nat = Some f
    /\ Sample.overlay_fields !! 3%nat = Some g
    /\ fld_name f = "CUST-NAME"
    /\ fld_redefines g = Some "CUST-ID"
    /\ 0 <= fld_length f /\ 1 <= fld_position f
    /\ fld_position f <= fld_position g.
Proof.
  assert (Hparse :
            parse_layout_file Sample.rejecting_codec Sample.rejecting_codec
              Sample.rejecting_codec
              (Sample.config (Some "/layout/OVERLAY.LAYOUT") 8) Sample.files
            = Ok Sample.overlay_fields) by (vm_compute; reflexivity).
  eexists _, _. split; [reflexivity|]. split; [reflexivity|].
  split; [reflexivity|]. split; [reflexivity|].
  exact (positions_never_decrease _ _ _ _ _ _ 1%nat 3%nat _ _ Hparse
           eq_refl eq_refl ltac:(lia)).
Defined.

(** ** Pictures with a parenthesised repetition *)










(** ** The catalog bridge *)

Lemma truthy_nonempty (s : string) : Py.truthy s = true <-> s <> EmptyString.
Proof. destruct s; cbn; split; congruence. Qed.

Lemma contains_obj (key : string) (m : gmap string Catalog.json) (v : Catalog.json) :
  m !! key = Some v -> Catalog.contains key (Catalog.JObj m) = Some true.
Proof.
  intros H. cbn. rewrite bool_decide_eq_true_2; [reflexivity|]. by eexists.
Qed.

Lemma contains_obj_absent (key : string) (m : gmap string Catalog.json) :
  m !! key = None -> Catalog.contains key (Catalog.JObj m) = Some false.
Proof.
  intros H. cbn. rewrite bool_decide_eq_false_2; [reflexivity|].
  rewrite H. by intros [? ?].
Qed.

Lemma load_sound (config : ConversionConfig) (file : Catalog.catalog_file)
    (md : Catalog.json) :
  Catalog.load_catalog_metadata config file = Some md ->
  Catalog.holds config file md.
Proof.
  unfold Catalog.load_catalog_metadata. intros H.
  destruct file as [| |catalog]; try discriminate.
  destruct (Catalog.contains (volume config) catalog) as [[|]|];
    try discriminate.
  destruct catalog as [| | | | | |catalog]; try discriminate.
  cbn [Catalog.getitem] in H.
  destruct (catalog !! volume config) as [volume_data|] eqn:Hv;
    try discriminate.
  destruct (Catalog.contains (library config) volume_data) as [[|]|];
    try discriminate.
  destruct (dataset_name config) as [name|] eqn:Hn; try discriminate.
  destruct (Py.truthy name) eqn:Ht; try discriminate.
  destruct volume_data as [| | | | | |volume_data]; try discriminate.
  cbn [Catalog.getitem] in H.
  destruct (volume_data !! library config) as [library_data|] eqn:Hl;
    try discriminate.
  destruct (Catalog.contains name library_data) as [[|]|];
    try discriminate.
  destruct library_data as [| | | | | |library_data]; try discriminate.
  cbn [Catalog.getitem] in H.
  exists catalog, volume_data, library_data, name.
  repeat split; try assumption; try reflexivity.
  by apply truthy_nonempty.
Qed.

Lemma load_complete (config : ConversionConfig) (file : Catalog.catalog_file)
    (md : Catalog.json) :
  Catalog.holds config file md ->
  Catalog.load_catalog_metadata config file = Some md.
Proof.
  intros (catalog & volume_data & library_data & name
          & -> & Hv & Hl & Hn & Hne & Hd).
  unfold Catalog.load_catalog_metadata.
  rewrite (contains_obj _ _ _ Hv). cbn [Catalog.getitem]. rewrite Hv.
  rewrite (contains_obj _ _ _ Hl), Hn.
  apply truthy_nonempty in Hne. rewrite Hne.
  cbn [Catalog.getitem]. rewrite Hl.
  rewrite (contains_obj _ _ _ Hd). exact Hd.
Qed.



Lemma setdefault_dict_insert (d : gmap string Catalog.json) (key : string)
    (m : gmap string Catalog.json) :
  Catalog.setdefault_dict (<[key := Catalog.JObj m]> d) key = Some m.
Proof. unfold Catalog.setdefault_dict. by rewrite lookup_insert_eq. Qed.

(** The result of [update_catalog_entry] in terms of [dataset_entry]. *)
Lemma update_catalog_entry_unfold (config : ConversionConfig) (st : stats)
    (updated conversion_date : string) (file : Catalog.catalog_file)
    (dataset_data : gmap string Catalog.json) :
  update_catalog config = true ->
  Catalog.dataset_entry config file = Some dataset_data ->
  exists catalog volume_data library_data name,
    file = Catalog.Content (Catalog.JObj catalog)
    /\ dataset_name config = Some name
    /\ name <> EmptyString
    /\ Catalog.setdefault_dict catalog (volume config) = Some volume_data
    /\ Catalog.setdefault_dict volume_data (library config)
       = Some library_data
    /\ Catalog.setdefault_dict library_data name = Some dataset_data
    /\ Catalog.update_catalog_entry config st updated conversion_date file
       = Catalog.Content
           (Catalog.JObj
              (<[volume config :=
                   Catalog.JObj
                     (<[library config :=
                          Catalog.JObj
                            (<[name :=
                                 Catalog.JObj
                                   (Catalog.conversion_metadata config st
                                      updated conversion_date
                                    ∪ dataset_data)]> library_data)]>
                        volume_data)]> catalog)).
Proof.
  intros Hu He. unfold Catalog.dataset_entry in He.
  destruct file as [| |[| | | | | |catalog]]; try discriminate.
  destruct (dataset_name config) as [name|] eqn:Hn; try discriminate.
  destruct (Py.truthy name) eqn:Ht; try discriminate.
  destruct (Catalog.setdefault_dict catalog (volume config))
    as [volume_data|] eqn:Hv; try discriminate.
  cbn [mbind option_bind] in He.
  destruct (Catalog.setdefault_dict volume_data (library config))
    as [library_data|] eqn:Hl; try discriminate.
  cbn [mbind option_bind] in He.
  exists catalog, volume_data, library_data, name.
  repeat split; try assumption; try reflexivity.
  - by apply truthy_nonempty.
  - unfold Catalog.update_catalog_entry.
    rewrite Hu, Hn. cbn [Py.truthy_opt]. rewrite Ht. cbn [negb orb].
    rewrite Hv, Hl, He. reflexivity.
Qed.

(** X24: an update that goes through is read back by
    [load_catalog_metadata]: the dataset's metadata is then the seven
    conversion entries laid over what the catalog held for the dataset
    before, so entries under other keys survive. *)
Theorem update_then_load (config : ConversionConfig) (st : stats)
    (updated conversion_date : string) (file : Catalog.catalog_file)
    (dataset_data : gmap string Catalog.json) :
  update_catalog config = true ->
  Catalog.dataset_entry config file = Some dataset_data ->
  Catalog.load_catalog_metadata config
    (Catalog.update_catalog_entry config st updated conversion_date file)
  = Some
      (Catalog.JObj
         (Catalog.conversion_metadata config st updated conversion_date
          ∪ dataset_data)).
Proof.
  intros Hu He.
  destruct (update_catalog_entry_unfold config st updated conversion_date
              file dataset_data Hu He)
    as (catalog & volume_data & library_data & name
        & -> & Hn & Hne & Hv & Hl & Hd & ->).
  apply load_complete.
  eexists _, _, _, name. split; [reflexivity|].
  rewrite !lookup_insert_eq. repeat split; assumption || reflexivity.
Qed.

Lemma update_then_load_witness :
  Catalog.load_catalog_metadata (Catalog.sample_config "CUST.SAM")
    (Catalog.update_catalog_entry (Catalog.sample_config "CUST.SAM")
       (mkStats 2 16 0 0) "2025-07-01T09:00:00" "2025-07-01T09:00:01"
       Catalog.sample_catalog)
  = Some
      (Catalog.JObj
         (Catalog.conversion_metadata (Catalog.sample_config "CUST.SAM")
            (mkStats 2 16 0 0) "2025-07-01T09:00:00" "2025-07-01T09:00:01"
          ∪ {[ "TYPE" := Catalog.JStr "DATASET";
               "OWNER" := Catalog.JStr "admin" ]})).
Proof.
  apply update_then_load; [reflexivity | vm_compute; reflexivity].
Defined.

Lemma update_off (config : ConversionConfig) (st : stats)
    (updated conversion_date : string) (file : Catalog.catalog_file) :
  update_catalog config = false ->
  Catalog.update_catalog_entry config st updated conversion_date file = file.
Proof. unfold Catalog.update_catalog_entry. by intros ->. Qed.

Lemma update_no_entry (config : ConversionConfig) (st : stats)
    (updated conversion_date : string) (file : Catalog.catalog_file) :
  Catalog.dataset_entry config file = None ->
  Catalog.update_catalog_entry config st updated conversion_date file = file.
Proof.
  unfold Catalog.update_catalog_entry, Catalog.dataset_entry. intros He.
  destruct (update_catalog config); [|reflexivity]. cbn [negb orb].
  destruct (dataset_name config) as [name|]; [|reflexivity].
  cbn [Py.truthy_opt]. destruct (Py.truthy name); [|reflexivity].
  cbn [negb].
  destruct file as [| |[| | | | | |catalog]]; try reflexivity.
  destruct (Catalog.setdefault_dict catalog (volume config))
    as [volume_data|]; [|reflexivity].
  cbn [mbind option_bind] in He.
  destruct (Catalog.setdefault_dict volume_data (library config))
    as [library_data|]; [|reflexivity].
  cbn [mbind option_bind] in He. rewrite He. reflexivity.
Qed.

(** X25: an update that cannot go through leaves the catalog file as it
    was: updating is switched off, no dataset is named, the file is
    missing or cannot be loaded, or a value on the way to the dataset is
    not an object.  Nothing is created or repaired. *)
Theorem update_failure_leaves_catalog (config : ConversionConfig)
    (st : stats) (updated conversion_date : string)
    (file : Catalog.catalog_file) :
  update_catalog config = false \/ Catalog.dataset_entry config file = None ->
  Catalog.update_catalog_entry config st updated conversion_date file = file.
Proof. intros [H|H]; [by apply update_off | by apply update_no_entry]. Qed.

Lemma update_failure_leaves_catalog_witness :
  Catalog.update_catalog_entry (Catalog.sample_config "CUST.SAM")
    (mkStats 2 16 0 0) "2025-07-01T09:00:00" "2025-07-01T09:00:01"
    (Catalog.Content
       (Catalog.JObj {[ "DISK01" := Catalog.JArr [Catalog.JStr "TESTLIB"] ]}))
  = Catalog.Content
      (Catalog.JObj {[ "DISK01" := Catalog.JArr [Catalog.JStr "TESTLIB"] ]}).
Proof.
  apply update_failure_leaves_catalog. right. vm_compute. reflexivity.
Defined.

(** Looking a key up below a level that [setdefault] may have created. *)
Lemma getitem_setdefault (d : gmap string Catalog.json) (key : string)
    (m : gmap string Catalog.json) (k : string) :
  Catalog.setdefault_dict d key = Some m ->
  m !! k = (match d !! key with
            | Some (Catalog.JObj m') => m' !! k
            | _ => None
            end).
Proof.
  unfold Catalog.setdefault_dict.
  destruct (d !! key) as [[| | | | | |m']|]; try discriminate.
  - by intros [= ->].
  - intros [= <-]. by rewrite lookup_empty.
Qed.

Lemma load_catalog_metadata_obj (config : ConversionConfig)
    (catalog : gmap string Catalog.json) :
  Catalog.load_catalog_metadata config
    (Catalog.Content (Catalog.JObj catalog))
  = match catalog !! volume config, dataset_name config with
    | Some (Catalog.JObj volume_data), Some name =>
        match volume_data !! library config with
        | Some (Catalog.JObj library_data) =>
            if Py.truthy name then library_data !! name else None
        | _ => None
        end
    | _, _ => None
    end.
Proof.
  destruct (Catalog.load_catalog_metadata config
              (Catalog.Content (Catalog.JObj catalog))) as [md|] eqn:H.
  - apply load_sound in H.
    destruct H as (c & volume_data & library_data & name
                   & [= <-] & -> & Hl & -> & Hne & Hd).
    rewrite Hl. apply truthy_nonempty in Hne. by rewrite Hne.
  - destruct (catalog !! volume config)
      as [[| | | | | |volume_data]|] eqn:Hv; try reflexivity;
      try (by destruct (dataset_name config)).
    destruct (dataset_name config) as [name|] eqn:Hn; [|reflexivity].
    destruct (volume_data !! library config)
      as [[| | | | | |library_data]|] eqn:Hl; try reflexivity.
    destruct (Py.truthy name) eqn:Ht; [|reflexivity].
    destruct (library_data !! name) as [md|] eqn:Hd; [|reflexivity].
    assert (Catalog.holds config (Catalog.Content (Catalog.JObj catalog)) md)
      as Hh.
    { exists catalog, volume_data, library_data, name.
      repeat split; try assumption. by apply truthy_nonempty. }
    apply load_complete in Hh. congruence.
Qed.

(** X26: an update for one dataset changes what [load_catalog_metadata]
    returns for no other dataset: for a configuration that differs in the
    volume, the library or the dataset name, the metadata loaded after
    the update is the metadata loaded before. *)
Theorem update_leaves_other_datasets (config other : ConversionConfig)
    (st : stats) (updated conversion_date : string)
    (file : Catalog.catalog_file) :
  Catalog.dataset_key other <> Catalog.dataset_key config ->
  Catalog.load_catalog_metadata other
    (Catalog.update_catalog_entry config st updated conversion_date file)
  = Catalog.load_catalog_metadata other file.
Proof.
  intros Hkey.
  destruct (update_catalog config) eqn:Hu;
    [|by rewrite update_off].
  destruct (Catalog.dataset_entry config file) as [dataset_data|] eqn:He;
    [|by rewrite update_no_entry].
  destruct (update_catalog_entry_unfold config st updated conversion_date
              file dataset_data Hu He)
    as (catalog & volume_data & library_data & name
        & -> & Hn & Hne & Hv & Hl & Hd & ->).
  rewrite !load_catalog_metadata_obj.
  unfold Catalog.dataset_key in Hkey. rewrite Hn in Hkey.
  destruct (decide (volume other = volume config)) as [Ev|Ev];
    [|by rewrite lookup_insert_ne].
  rewrite Ev, lookup_insert_eq.
  destruct (dataset_name other) as [name'|] eqn:Hn';
    [|by destruct (catalog !! volume config) as [[| | | | | |?]|]].
  destruct (decide (library other = library config)) as [El|El].
  - rewrite El, lookup_insert_eq.
    assert (name' <> name) as Hnn by (intros ->; apply Hkey; congruence).
    rewrite lookup_insert_ne by congruence.
    rewrite (getitem_setdefault _ _ _ name' Hl).
    rewrite (getitem_setdefault _ _ _ (library config) Hv).
    destruct (catalog !! volume config) as [[| | | | | |vd]|];
      try (destruct (Py.truthy name'); reflexivity).
    destruct (vd !! library config) as [[| | | | | |ld]|];
      destruct (Py.truthy name'); reflexivity.
  - rewrite lookup_insert_ne by congruence.
    rewrite (getitem_setdefault _ _ _ (library other) Hv).
    destruct (catalog !! volume config) as [[| | | | | |vd]|];
      try reflexivity.
Qed.

Lemma update_leaves_other_datasets_witness :
  Catalog.load_catalog_metadata (Catalog.sample_config "CUST.SAM")
    (Catalog.update_catalog_entry (Catalog.sample_config "CUST.NEW")
       (mkStats 2 16 0 0) "2025-07-01T09:00:00" "2025-07-01T09:00:01"
       Catalog.sample_catalog)
  = Catalog.load_catalog_metadata (Catalog.sample_config "CUST.SAM")
      Catalog.sample_catalog.
Proof.
  apply update_leaves_other_datasets. vm_compute. discriminate.
Defined.

(** The keys of the conversion entries do not depend on the run. *)
Lemma conversion_metadata_keys (config : ConversionConfig) (st1 st2 : stats)
    (u1 d1 u2 d2 : string) (k : string) :
  Catalog.conversion_metadata config st1 u1 d1 !! k = None ->
  Catalog.conversion_metadata config st2 u2 d2 !! k = None.
Proof.
  unfold Catalog.conversion_metadata, Py.dict_of_list.
  cbn [fold_left fst snd].
  rewrite !lookup_insert_None. tauto.
Qed.

Lemma conversion_metadata_overwrites (config : ConversionConfig)
    (st1 st2 : stats) (u1 d1 u2 d2 : string)
    (dataset_data : gmap string Catalog.json) :
  Catalog.conversion_metadata config st2 u2 d2
  ∪ (Catalog.conversion_metadata config st1 u1 d1 ∪ dataset_data)
  = Catalog.conversion_metadata config st2 u2 d2 ∪ dataset_data.
Proof.
  apply map_eq. intros k. rewrite !lookup_union.
  destruct (Catalog.conversion_metadata config st2 u2 d2 !! k) eqn:H2.
  - by rewrite !union_Some_l.
  - rewrite (conversion_metadata_keys config st2 st1 u2 d2 u1 d1 k H2).
    destruct (dataset_data !! k); reflexivity.
Qed.

(** X27: a second update for the same dataset replaces the first one
    completely: the catalog after both is the catalog that the second
    update alone would have produced, whatever the statistics and the
    time stamps of the first. *)
Theorem update_twice_is_last_update (config : ConversionConfig)
    (st1 st2 : stats) (u1 d1 u2 d2 : string) (file : Catalog.catalog_file) :
  Catalog.update_catalog_entry config st2 u2 d2
    (Catalog.update_catalog_entry config st1 u1 d1 file)
  = Catalog.update_catalog_entry config st2 u2 d2 file.
Proof.
  destruct (update_catalog config) eqn:Hu;
    [|by rewrite !update_off].
  destruct (Catalog.dataset_entry config file) as [dataset_data|] eqn:He;
    [|by rewrite (update_no_entry config st1)].
  destruct (update_catalog_entry_unfold config st1 u1 d1 file dataset_data
              Hu He)
    as (catalog & volume_data & library_data & name
        & -> & Hn & Hne & Hv & Hl & Hd & ->).
  destruct (update_catalog_entry_unfold config st2 u2 d2 _ dataset_data
              Hu He)
    as (catalog2 & volume_data2 & library_data2 & name2
        & [= <-] & Hn2 & _ & Hv2 & Hl2 & Hd2 & ->).
  assert (name2 = name) as -> by congruence.
  assert (volume_data2 = volume_data) as -> by congruence.
  assert (library_data2 = library_data) as -> by congruence.
  unfold Catalog.update_catalog_entry.
  rewrite Hu, Hn. cbn [Py.truthy_opt].
  apply truthy_nonempty in Hne. rewrite Hne. cbn [negb orb].
  rewrite !setdefault_dict_insert, !insert_insert_eq.
  by rewrite conversion_metadata_overwrites.
Qed.


